(** * SCD4x driver (7Semi_SCD4x.cpp): CRC-8, framing, reads and conversions

    A shallow embedding of the low-level helpers and of the facade methods
    of [SCD4x_7Semi], with the properties of the driver's specification
    proved (or refuted) over it.

    Conventions:
    - [uint8_t], [uint16_t], [uint32_t], [uint64_t] values are [Z] with the
      wrap-around of every conversion written out ([u8], [u16], ...);
    - [float] is IEEE-754 binary32, through the Standard Library's
      [SpecFloat] with [prec = 24] and [emax = 128];
    - the [TwoWire] bus is an interface (a type class); the driver is written
      once for every instance, in a state monad over the bus and the
      millisecond clock;
    - a reference parameter ([uint16_t &word], [uint16_t *out]) is passed
      in with the caller's value and handed back with the result. *)

From Stdlib Require Import ZArith List Lia Bool QArith Qabs.
From Stdlib Require Import Floats.SpecFloat.
From stdpp Require Import base list.
Import ListNotations.

Local Open Scope Z_scope.

(** ** Fixed-width integers *)

Definition u8 (x : Z) : Z := x mod 256.
Definition u16 (x : Z) : Z := x mod 65536.
Definition u32 (x : Z) : Z := x mod 4294967296.
Definition u64 (x : Z) : Z := x mod 18446744073709551616.

Definition is_u8 (x : Z) : Prop := 0 <= x < 256.
Definition is_u16 (x : Z) : Prop := 0 <= x < 65536.

(** ** CRC-8 (crc8, lines 382-389) *)

(** One round of the loop body
    [crc = (crc & 0x80) ? (uint8_t)((crc << 1) ^ 0x31) : (uint8_t)(crc << 1)]. *)
Definition crc_round (crc : Z) : Z :=
  if negb (Z.land crc 0x80 =? 0)
  then u8 (Z.lxor (Z.shiftl crc 1) 0x31)
  else u8 (Z.shiftl crc 1).

(** [for (int i = 0; i < 8; ++i) crc = ...], run [n] times. *)
Fixpoint crc_rounds (n : nat) (crc : Z) : Z :=
  match n with
  | O => crc
  | S n' => crc_rounds n' (crc_round crc)
  end.

Definition crc8 (b0 b1 : Z) : Z :=
  let crc := 0xFF in
  let crc := u8 (Z.lxor crc b0) in
  let crc := crc_rounds 8 crc in
  let crc := u8 (Z.lxor crc b1) in
  let crc := crc_rounds 8 crc in
  crc.

(** The algorithm in the words of the specification: seed 0xFF; for each
    input byte, XOR it into the running checksum, then eight times: if the
    high bit is set, shift left and XOR with 0x31, else shift left. *)
Definition spec_shift (c : Z) : Z :=
  if Z.testbit c 7 then Z.lxor ((2 * c) mod 256) 0x31 else (2 * c) mod 256.

Definition spec_absorb (c b : Z) : Z := Nat.iter 8 spec_shift (Z.lxor c b).

Definition crc8_spec (bytes : list Z) : Z := fold_left spec_absorb bytes 0xFF.

(** The same checksum as a remainder of polynomials over GF(2): the
    message, with the seed XORed into its first byte, is multiplied by x^8
    and reduced modulo x^8 + x^5 + x^4 + 1 (0x131, that is 0x31 with the
    leading term). [gf2_reduce n a] clears the bits [8 .. 8+n-1] of [a]. *)
Fixpoint gf2_reduce (n : nat) (a : Z) : Z :=
  match n with
  | O => a
  | S n' =>
      let a' := if Z.testbit a (Z.of_nat n' + 8)
                then Z.lxor a (Z.shiftl 0x131 (Z.of_nat n')) else a in
      gf2_reduce n' a'
  end.

Definition crc8_poly (b0 b1 : Z) : Z :=
  gf2_reduce 16 (Z.shiftl (Z.lor (Z.shiftl (Z.lxor b0 0xFF) 8) b1) 8).

(** ** Word codec (checkCrc, lines 464-469; the loop body of txCommand) *)

(** [p] is the slice [p[0], p[1], p[2], ...]; [word] is the caller's
    variable behind the reference, returned with its final value. *)
Definition checkCrc (p : list Z) (word : Z) : bool * Z :=
  let b0 := nth 0 p 0 in
  let b1 := nth 1 p 0 in
  let c := nth 2 p 0 in
  if negb (crc8 b0 b1 =? c) then (false, word)
  else (true, u16 (Z.lor (Z.shiftl b0 8) b1)).

(** The three bytes txCommand puts on the wire for one payload word. *)
Definition word_group (w : Z) : list Z :=
  let b0 := u8 (Z.shiftr w 8) in
  let b1 := u8 (Z.land w 0xFF) in
  let c := crc8 b0 b1 in
  [b0; b1; c].

(** Flip bit [k] (0 .. 23) of a 3-byte group: bit [k mod 8] of byte
    [k / 8]. *)
Definition flip_bit (k : nat) (g : list Z) : list Z :=
  match g !! (k / 8)%nat with
  | Some b => <[(k / 8)%nat := Z.lxor b (Z.shiftl 1 (Z.of_nat (k mod 8)))]> g
  | None => g
  end.

Definition all_bytes : list Z := map Z.of_nat (seq 0 (Z.to_nat 256)).
Definition all_words : list Z :=
  flat_map (fun hi => map (fun lo => 256 * hi + lo) all_bytes) all_bytes.

Definition crc_unround (r : Z) : Z :=
  if Z.testbit r 0 then Z.lor (Z.shiftr (Z.lxor r 0x31) 1) 0x80 else Z.shiftr r 1.

Fixpoint crc_unrounds (n : nat) (r : Z) : Z :=
  match n with
  | O => r
  | S n' => crc_unround (crc_unrounds n' r)
  end.

Definition bit_mask (j : nat) : Z := Z.shiftl 1 (Z.of_nat (j mod 8)).

(** ** binary32 arithmetic ([float])

    [SpecFloat] is the Standard Library's executable IEEE-754
    specification; at precision 24 and maximal exponent 128 it is the
    [float] of the targets, with round-to-nearest-even. *)

Definition float := spec_float.

Definition fadd : float -> float -> float := SFadd 24 128.
Definition fmul : float -> float -> float := SFmul 24 128.
Definition fdiv : float -> float -> float := SFdiv 24 128.

(** The float nearest to [m * 2^e]; every literal of the driver and every
    [(float)] conversion of a 16-bit word is exact. *)
Definition float_of (m e : Z) : float := binary_normalize 24 128 m e false.
Definition float_of_Z (z : Z) : float := float_of z 0.

(** [(uint16_t) x]: the value truncated toward zero; C++ leaves the
    conversion undefined when the truncated value is not a [uint16_t]
    (and for infinities and NaN), which is [None] here. *)
Definition float_trunc (x : float) : option Z :=
  match x with
  | S754_zero _ => Some 0
  | S754_finite s m e => Some (cond_Zopp s (Z.shiftl (Zpos m) e))
  | _ => None
  end.

Definition float_to_u16 (x : float) : option Z :=
  match float_trunc x with
  | Some z => if (0 <=? z) && (z <=? 65535) then Some z else None
  | None => None
  end.

(** The exact rational value of a finite float (0 for the others; the
    conversions below stay finite). *)
Definition float_val (x : float) : Q :=
  match x with
  | S754_finite s m e =>
      match e with
      | Zneg p => Qmake (cond_Zopp s (Zpos m)) (2 ^ p)%positive
      | _ => inject_Z (cond_Zopp s (Zpos m) * 2 ^ e)
      end
  | _ => 0%Q
  end.

Definition is_finite (x : float) : bool :=
  match x with
  | S754_zero _ | S754_finite _ _ _ => true
  | _ => false
  end.

(** ** Unit conversions (the expressions at lines 152, 153, 178, 189) *)

(** [-45.0f + 175.0f * (float)t_raw / 65535.0f] *)
Definition temp_of_raw (t_raw : Z) : float :=
  fadd (float_of_Z (-45)) (fdiv (fmul (float_of_Z 175) (float_of_Z t_raw)) (float_of_Z 65535)).

(** [100.0f * (float)rh_raw / 65535.0f] *)
Definition rh_of_raw (rh_raw : Z) : float :=
  fdiv (fmul (float_of_Z 100) (float_of_Z rh_raw)) (float_of_Z 65535).

(** [(uint16_t)((degC / 175.0f) * 65535.0f)] *)
Definition offset_to_raw (degC : float) : option Z :=
  float_to_u16 (fmul (fdiv degC (float_of_Z 175)) (float_of_Z 65535)).

(** [175.0f * (float)raw / 65535.0f] *)
Definition offset_of_raw (raw : Z) : float :=
  fdiv (fmul (float_of_Z 175) (float_of_Z raw)) (float_of_Z 65535).

(** The formulas of the specification, over the rationals. *)
Definition temp_exact (t_raw : Z) : Q := (-45 + 175 * inject_Z t_raw / 65535)%Q.
Definition rh_exact (rh_raw : Z) : Q := (100 * inject_Z rh_raw / 65535)%Q.

(** One least-significant bit of the offset word, 175/65535 degrees. *)
Definition offset_lsb : Q := (175 # 65535)%Q.

Definition within (tol a b : Q) : bool := Qle_bool (Qabs (a - b)) tol.

(** Encode-then-decode of an offset stays within one LSB. *)
Definition offset_round_trip_ok (degC : float) : bool :=
  match offset_to_raw degC with
  | Some raw => within offset_lsb (float_val (offset_of_raw raw)) (float_val degC)
  | None => false
  end.

(** What is checked of every raw word: the conversion is finite, agrees
    with the exact formula up to the rounding of binary32, and stays in
    the range of the formula. *)
Definition temp_check (t_raw : Z) : bool :=
  let x := temp_of_raw t_raw in
  is_finite x && within (1 # 131072) (float_val x) (temp_exact t_raw)
  && Qle_bool (-45) (float_val x) && Qle_bool (float_val x) 130.

Definition rh_check (rh_raw : Z) : bool :=
  let x := rh_of_raw rh_raw in
  is_finite x && within (1 # 262144) (float_val x) (rh_exact rh_raw)
  && Qle_bool 0 (float_val x) && Qle_bool (float_val x) 100.

(** For the offset: the decoded value is finite and between 0 and 175,
    encoding it again gives the word or the word below it (the encoder
    truncates), and it is farther than one LSB from -10. *)
Definition offset_check (raw : Z) : bool :=
  let x := offset_of_raw raw in
  is_finite x && Qle_bool 0 (float_val x) && Qle_bool (float_val x) 175
  && match offset_to_raw x with
     | Some r => (r =? raw) || (r =? raw - 1)
     | None => false
     end
  && negb (within offset_lsb (float_val x) (float_val (float_of_Z (-10)))).

(** [(w0 << 32) | (w1 << 16) | w2] on [uint64_t] (line 326). *)
Definition serial_of_words (w0 w1 w2 : Z) : Z :=
  u64 (Z.lor (Z.lor (u64 (Z.shiftl w0 32)) (u64 (Z.shiftl w1 16))) w2).

(** ** Received groups and frames, in the words of the specification *)

(** The words of the first [n] CRC-protected groups of [bytes] that come
    before the first group whose CRC does not match. *)
Fixpoint valid_prefix (n : nat) (bytes : list Z) : list Z :=
  match n, bytes with
  | S n', b0 :: b1 :: c :: rest =>
      if crc8 b0 b1 =? c
      then u16 (Z.lor (Z.shiftl b0 8) b1) :: valid_prefix n' rest
      else []
  | _, _ => []
  end.

(** Every one of the first [n] groups of [bytes] carries the right CRC. *)
Definition all_crc_ok (n : nat) (bytes : list Z) : bool :=
  (length (valid_prefix n bytes) =? n)%nat.

(** The three words of nine received bytes, when all three CRCs match. *)
Definition three_words (raw : list Z) : option (Z * Z * Z) :=
  match valid_prefix 3 raw with
  | [a; b; c] => Some (a, b, c)
  | _ => None
  end.

(** [ws] written over [out] from index [i] on. *)
Definition overwrite (i : nat) (ws out : list Z) : list Z :=
  take i out ++ ws ++ drop (i + length ws) out.

(** The frame of a write transaction: command MSB, command LSB, then for
    each payload word its MSB, its LSB and the CRC-8 of the two. *)
Definition frame (cmd : Z) (words : list Z) : list Z :=
  [cmd / 256 mod 256; cmd mod 256] ++
  flat_map (fun w => [w / 256 mod 256; w mod 256; crc8 (w / 256 mod 256) (w mod 256)]) words.

(** ** The I2C bus and the clock *)

(** The members of [TwoWire] the driver calls.  [endTransmission] gives the
    status byte (0 is success), [read] the next byte or -1; [idle ms] is
    what the bus does on its own while the host sits in [delay(ms)]. *)
Class TwoWire (T : Type) := {
  wire_begin : T -> T;
  setClock : Z -> T -> T;
  beginTransmission : Z -> T -> T;
  write : Z -> T -> T;
  endTransmission : T -> Z * T;
  requestFrom : Z -> Z -> T -> T;
  available : T -> Z;
  read : T -> Z * T;
  idle : Z -> T -> T
}.

(** The state the driver runs in: the bus behind [i2c] and the
    milliseconds since start-up.  Only [delay] lets time pass. *)
Record World (T : Type) := mkWorld { i2c : T; clock : Z }.
Arguments mkWorld {T} _ _.
Arguments i2c {T} _.
Arguments clock {T} _.

(** A computation of the driver.  [None]: no result -- the polling loop
    was still running when the fuel ran out, or the behaviour is undefined
    in C++. *)
Definition M (T A : Type) : Type := World T -> option (A * World T).

Definition ret {T A} (a : A) : M T A := fun w => Some (a, w).

Definition bind {T A B} (c : M T A) (k : A -> M T B) : M T B :=
  fun w => match c w with
           | Some (a, w') => k a w'
           | None => None
           end.

Definition undefined {T A} : M T A := fun _ => None.

Declare Scope drv_scope.
Delimit Scope drv_scope with drv.
Notation "x <- c1 ;; c2" := (bind c1 (fun x => c2))
  (at level 100, c1 at next level, c2 at level 200, right associativity) : drv_scope.
Notation "c1 ;; c2" := (bind c1 (fun _ => c2))
  (at level 100, c2 at level 200, right associativity) : drv_scope.

(** The opcodes.  The header that defines them is not part of the sources
    at hand, so they are parameters of the driver. *)
Record CommandIds := {
  START_PERIODIC_MEASUREMENT_CMD_ID : Z;
  START_LOW_POWER_PERIODIC_MEASUREMENT_CMD_ID : Z;
  STOP_PERIODIC_MEASUREMENT_CMD_ID : Z;
  GET_DATA_READY_STATUS_RAW_CMD_ID : Z;
  READ_MEASUREMENT_RAW_CMD_ID : Z;
  MEASURE_SINGLE_SHOT_CMD_ID : Z;
  MEASURE_SINGLE_SHOT_RHT_ONLY_CMD_ID : Z;
  SET_TEMPERATURE_OFFSET_RAW_CMD_ID : Z;
  GET_TEMPERATURE_OFFSET_RAW_CMD_ID : Z;
  SET_SENSOR_ALTITUDE_CMD_ID : Z;
  GET_SENSOR_ALTITUDE_CMD_ID : Z;
  SET_AMBIENT_PRESSURE_RAW_CMD_ID : Z;
  GET_AMBIENT_PRESSURE_RAW_CMD_ID : Z;
  SET_AUTOMATIC_SELF_CALIBRATION_ENABLED_CMD_ID : Z;
  GET_AUTOMATIC_SELF_CALIBRATION_ENABLED_CMD_ID : Z;
  SET_AUTOMATIC_SELF_CALIBRATION_TARGET_CMD_ID : Z;
  GET_AUTOMATIC_SELF_CALIBRATION_TARGET_CMD_ID : Z;
  SET_AUTOMATIC_SELF_CALIBRATION_INITIAL_PERIOD_CMD_ID : Z;
  GET_AUTOMATIC_SELF_CALIBRATION_INITIAL_PERIOD_CMD_ID : Z;
  SET_AUTOMATIC_SELF_CALIBRATION_STANDARD_PERIOD_CMD_ID : Z;
  GET_AUTOMATIC_SELF_CALIBRATION_STANDARD_PERIOD_CMD_ID : Z;
  PERFORM_FORCED_RECALIBRATION_CMD_ID : Z;
  PERSIST_SETTINGS_CMD_ID : Z;
  GET_SERIAL_NUMBER_CMD_ID : Z;
  GET_SENSOR_VARIANT_RAW_CMD_ID : Z;
  PERFORM_SELF_TEST_CMD_ID : Z;
  PERFORM_FACTORY_RESET_CMD_ID : Z;
  REINIT_CMD_ID : Z;
  POWER_DOWN_CMD_ID : Z;
  WAKE_UP_CMD_ID : Z
}.

(** ** The driver *)

Section Driver.
Context {T : Type} {wire : TwoWire T}.

(** The member [address] and the opcode table. *)
Variable address : Z.
Variable ids : CommandIds.

Local Open Scope drv_scope.

(** *** Arduino primitives *)

Definition millis : M T Z := fun w => Some (u32 (clock w), w).

Definition delay (ms : Z) : M T unit :=
  fun w => Some (tt, mkWorld (idle ms (i2c w)) (clock w + ms)).

Definition i2c_begin : M T unit :=
  fun w => Some (tt, mkWorld (wire_begin (i2c w)) (clock w)).

Definition i2c_setClock (freq : Z) : M T unit :=
  fun w => Some (tt, mkWorld (setClock freq (i2c w)) (clock w)).

Definition i2c_beginTransmission (a : Z) : M T unit :=
  fun w => Some (tt, mkWorld (beginTransmission a (i2c w)) (clock w)).

Definition i2c_write (b : Z) : M T unit :=
  fun w => Some (tt, mkWorld (write b (i2c w)) (clock w)).

Definition i2c_endTransmission : M T Z :=
  fun w => let '(st, t) := endTransmission (i2c w) in Some (st, mkWorld t (clock w)).

Definition i2c_requestFrom (a n : Z) : M T unit :=
  fun w => Some (tt, mkWorld (requestFrom a n (i2c w)) (clock w)).

Definition i2c_available : M T Z := fun w => Some (available (i2c w), w).

(** [uint8_t b = i2c->read()]: the [int] result stored in a byte. *)
Definition i2c_read : M T Z :=
  fun w => let '(b, t) := read (i2c w) in Some (u8 b, mkWorld t (clock w)).

(** *** txCommand (lines 443-456), sendCommand, writeCommand

    [words] with [nwords] is the list of the payload words. *)
Fixpoint tx_words (words : list Z) : M T unit :=
  match words with
  | [] => ret tt
  | w :: rest =>
      let b0 := u8 (Z.shiftr w 8) in
      let b1 := u8 (Z.land w 0xFF) in
      let c := crc8 b0 b1 in
      i2c_write b0 ;; i2c_write b1 ;; i2c_write c ;; tx_words rest
  end.

Definition txCommand (cmd : Z) (words : list Z) : M T bool :=
  i2c_beginTransmission address ;;
  i2c_write (u8 (Z.shiftr cmd 8)) ;;
  i2c_write (u8 (Z.land cmd 0xFF)) ;;
  tx_words words ;;
  st <- i2c_endTransmission ;;
  ret (st =? 0).

Definition sendCommand (cmd : Z) : M T bool := txCommand cmd [].

Definition writeCommand (cmd : Z) (words : list Z) : M T bool := txCommand cmd words.

(** *** readNData (lines 413-434)

    [while (i2c->available() < (int)nbytes) { if (millis() - t0 > 100)
    return false; delay(1); }]; the result is whether the data came.
    The subtraction is on [uint32_t].  The source compares with
    [(int)nbytes], [nbytes] being the [size_t] product [nwords * 3]; here
    the comparison is with the product itself, which is the same as long
    as [nwords * 3 <= 32767] (the product then fits the [int] and the
    [size_t] of every target).  Every statement about a read of [nwords]
    words carries this bound; the one-word reads of the facade are within
    it. *)
Fixpoint wait_available (fuel : nat) (nbytes t0 : Z) : M T bool :=
  match fuel with
  | O => undefined
  | S fuel' =>
      n <- i2c_available ;;
      if n <? nbytes then
        now <- millis ;;
        if u32 (now - t0) >? 100 then ret false
        else delay 1 ;; wait_available fuel' nbytes t0
      else ret true
  end.

(** [for (size_t i = 0; i < nwords; ++i) { ... out[i] = ...; }], with
    [count] words still to read.  [out] is the caller's buffer, which
    has room for [nwords] words. *)
Fixpoint read_words (count i : nat) (out : list Z) : M T (bool * list Z) :=
  match count with
  | O => ret (true, out)
  | S count' =>
      b0 <- i2c_read ;;
      b1 <- i2c_read ;;
      crc <- i2c_read ;;
      if negb (crc8 b0 b1 =? crc) then ret (false, out)
      else read_words count' (S i) (<[i := u16 (Z.lor (Z.shiftl b0 8) b1)]> out)
  end.

Definition readNData (fuel : nat) (cmd : Z) (out : list Z) (nwords : nat)
  : M T (bool * list Z) :=
  ok <- sendCommand cmd ;;
  if negb ok then ret (false, out) else
  delay 1 ;;
  let nbytes := Z.of_nat nwords * 3 in
  i2c_requestFrom (u8 address) (u8 nbytes) ;;
  t0 <- millis ;;
  ready <- wait_available fuel nbytes t0 ;;
  if negb ready then ret (false, out) else
  read_words nwords 0 out.

(** [readNData(cmd, &word, 1)]: the one-word buffer is the caller's
    variable [word]. *)
Definition readNData1 (fuel : nat) (cmd : Z) (word : Z) : M T (bool * Z) :=
  r <- readNData fuel cmd [word] 1 ;;
  ret (fst r, nth 0 (snd r) word).

(** [for (size_t i = 0; i < 9; ++i) raw[i] = i2c->read();] *)
Fixpoint read_raw (n : nat) : M T (list Z) :=
  match n with
  | O => ret []
  | S n' => b <- i2c_read ;; bs <- read_raw n' ;; ret (b :: bs)
  end.

(** *** Measurement control (lines 101-169) *)

Definition startPeriodicMeasurement : M T bool :=
  sendCommand (START_PERIODIC_MEASUREMENT_CMD_ID ids).

Definition startLowPowerPeriodicMeasurement : M T bool :=
  sendCommand (START_LOW_POWER_PERIODIC_MEASUREMENT_CMD_ID ids).

Definition stopPeriodicMeasurement : M T bool :=
  sendCommand (STOP_PERIODIC_MEASUREMENT_CMD_ID ids).

Definition getDataReadyStatus (fuel : nat) (status_raw : Z) : M T (bool * Z) :=
  readNData1 fuel (GET_DATA_READY_STATUS_RAW_CMD_ID ids) status_raw.

(** readMeasurement (lines 135-155).  The three references come in as
    [outs] and go back with the result.  The locals [co2_raw], [t_raw],
    [rh_raw] start indeterminate (0 here; they are read only after
    checkCrc has set them). *)
Definition readMeasurement (outs : Z * float * float)
  : M T (bool * (Z * float * float)) :=
  ok <- sendCommand (READ_MEASUREMENT_RAW_CMD_ID ids) ;;
  if negb ok then ret (false, outs) else
  delay 5 ;;
  i2c_requestFrom (u8 address) (u8 9) ;;
  n <- i2c_available ;;
  if n <? 9 then ret (false, outs) else
  raw <- read_raw 9 ;;
  let '(ok0, co2_raw) := checkCrc (drop 0 raw) 0 in
  if negb ok0 then ret (false, outs) else
  let '(ok1, t_raw) := checkCrc (drop 3 raw) 0 in
  if negb ok1 then ret (false, outs) else
  let '(ok2, rh_raw) := checkCrc (drop 6 raw) 0 in
  if negb ok2 then ret (false, outs) else
  ret (true, (co2_raw, temp_of_raw t_raw, rh_of_raw rh_raw)).

Definition measureSingleShot : M T bool :=
  sendCommand (MEASURE_SINGLE_SHOT_CMD_ID ids).

Definition measureSingleShotRhtOnly : M T bool :=
  sendCommand (MEASURE_SINGLE_SHOT_RHT_ONLY_CMD_ID ids).

(** *** Configuration (lines 177-220) *)

Definition setTemperatureOffset (degC : float) : M T bool :=
  match offset_to_raw degC with
  | Some raw => writeCommand (SET_TEMPERATURE_OFFSET_RAW_CMD_ID ids) [raw]
  | None => undefined
  end.

Definition getTemperatureOffset (fuel : nat) (degC : float) : M T (bool * float) :=
  r <- readNData1 fuel (GET_TEMPERATURE_OFFSET_RAW_CMD_ID ids) 0 ;;
  if negb (fst r) then ret (false, degC) else
  ret (true, offset_of_raw (snd r)).

Definition setSensorAltitude (meters : Z) : M T bool :=
  writeCommand (SET_SENSOR_ALTITUDE_CMD_ID ids) [meters].

Definition getSensorAltitude (fuel : nat) (meters : Z) : M T (bool * Z) :=
  readNData1 fuel (GET_SENSOR_ALTITUDE_CMD_ID ids) meters.

Definition setAmbientPressureRaw (mbar_raw : Z) : M T bool :=
  writeCommand (SET_AMBIENT_PRESSURE_RAW_CMD_ID ids) [mbar_raw].

Definition getAmbientPressureRaw (fuel : nat) (mbar_raw : Z) : M T (bool * Z) :=
  readNData1 fuel (GET_AMBIENT_PRESSURE_RAW_CMD_ID ids) mbar_raw.

(** *** Automatic self-calibration (lines 227-283) *)


Definition getAutomaticSelfCalibrationEnabled (fuel : nat) (enabled : bool)
  : M T (bool * bool) :=
  r <- readNData1 fuel (GET_AUTOMATIC_SELF_CALIBRATION_ENABLED_CMD_ID ids) 0 ;;
  if negb (fst r) then ret (false, enabled) else
  ret (true, negb (snd r =? 0)).


Definition getAutomaticSelfCalibrationTarget (fuel : nat) (ppm : Z) : M T (bool * Z) :=
  readNData1 fuel (GET_AUTOMATIC_SELF_CALIBRATION_TARGET_CMD_ID ids) ppm.


Definition getAutomaticSelfCalibrationInitialPeriod (fuel : nat) (hours : Z)
  : M T (bool * Z) :=
  readNData1 fuel (GET_AUTOMATIC_SELF_CALIBRATION_INITIAL_PERIOD_CMD_ID ids) hours.


Definition getAutomaticSelfCalibrationStandardPeriod (fuel : nat) (hours : Z)
  : M T (bool * Z) :=
  readNData1 fuel (GET_AUTOMATIC_SELF_CALIBRATION_STANDARD_PERIOD_CMD_ID ids) hours.

(** performForcedRecalibration (lines 290-297).  [frc_result] is [None]
    for a null pointer, else the value behind it. *)
Definition performForcedRecalibration (fuel : nat) (reference_ppm : Z)
  (frc_result : option Z) : M T (bool * option Z) :=
  ok <- writeCommand (PERFORM_FORCED_RECALIBRATION_CMD_ID ids) [reference_ppm] ;;
  if negb ok then ret (false, frc_result) else
  match frc_result with
  | Some v =>
      delay 500 ;;
      r <- readNData1 fuel (PERFORM_FORCED_RECALIBRATION_CMD_ID ids) v ;;
      if negb (fst r) then ret (false, Some (snd r))
      else ret (true, Some (snd r))
  | None => ret (true, None)
  end.

(** *** Maintenance and identity (lines 304-372) *)

Definition persistSettings : M T bool := sendCommand (PERSIST_SETTINGS_CMD_ID ids).

Definition readSerialNumber (sn : Z) : M T (bool * Z) :=
  ok <- sendCommand (GET_SERIAL_NUMBER_CMD_ID ids) ;;
  if negb ok then ret (false, sn) else
  delay 5 ;;
  i2c_requestFrom (u8 address) (u8 9) ;;
  n <- i2c_available ;;
  if n <? 9 then ret (false, sn) else
  raw <- read_raw 9 ;;
  let '(ok0, w0) := checkCrc (drop 0 raw) 0 in
  if negb ok0 then ret (false, sn) else
  let '(ok1, w1) := checkCrc (drop 3 raw) 0 in
  if negb ok1 then ret (false, sn) else
  let '(ok2, w2) := checkCrc (drop 6 raw) 0 in
  if negb ok2 then ret (false, sn) else
  ret (true, serial_of_words w0 w1 w2).

Definition getSensorVariantRaw (fuel : nat) (variant : Z) : M T (bool * Z) :=
  readNData1 fuel (GET_SENSOR_VARIANT_RAW_CMD_ID ids) variant.

Definition performSelfTest (fuel : nat) (status_word : Z) : M T (bool * Z) :=
  readNData1 fuel (PERFORM_SELF_TEST_CMD_ID ids) status_word.

Definition factoryReset : M T bool := sendCommand (PERFORM_FACTORY_RESET_CMD_ID ids).

Definition reInit : M T bool := sendCommand (REINIT_CMD_ID ids).

Definition powerDown : M T bool := sendCommand (POWER_DOWN_CMD_ID ids).

Definition wakeUp : M T bool := sendCommand (WAKE_UP_CMD_ID ids).

(** *** What the bus does and delivers

    The bus after the bytes [bs] were written to it. *)
Definition wire_bytes (bs : list Z) (t : T) : T :=
  fold_left (fun t' b => write b t') bs t.

(** The status and the bus after one write transaction carrying the
    frame of [cmd] and [words]. *)
Definition tx_bus (cmd : Z) (words : list Z) (t : T) : Z * T :=
  endTransmission (wire_bytes (frame cmd words) (beginTransmission address t)).

(** The bus after a command without payload, [settle] milliseconds and
    the request for [nbytes] bytes. *)
Definition request_bus (cmd settle nbytes : Z) (t : T) : T :=
  requestFrom (u8 address) (u8 nbytes) (idle settle (snd (tx_bus cmd [] t))).

(** The next [n] bytes read from bus state [t], as the driver stores
    them, and the state after them. *)
Fixpoint rx_bytes (n : nat) (t : T) : list Z * T :=
  match n with
  | O => ([], t)
  | S n' =>
      let '(b, t1) := read t in
      let '(bs, t2) := rx_bytes n' t1 in
      (u8 b :: bs, t2)
  end.

(** The bus as the polling loop sees it after [k] rounds of [delay(1)]. *)
Definition idle_rounds (k : nat) (t : T) : T := Nat.iter k (idle 1) t.

(** The number of [delay(1)] rounds of a polling loop that may make [n]
    of them, waiting for [nbytes] bytes from bus state [t]. *)
Fixpoint rounds_waited (n : nat) (nbytes : Z) (t : T) : nat :=
  match n with
  | O => O
  | S n' =>
      if available t <? nbytes then S (rounds_waited n' nbytes (idle 1 t)) else O
  end.

(** The rounds the polling loop of readNData makes -- at most 101 -- and
    the bus it ends on. *)
Definition poll_rounds (cmd : Z) (nwords : nat) (t : T) : nat :=
  rounds_waited 101 (Z.of_nat nwords * 3) (request_bus cmd 1 (Z.of_nat nwords * 3) t).

Definition poll_bus (cmd : Z) (nwords : nat) (t : T) : T :=
  idle_rounds (poll_rounds cmd nwords t) (request_bus cmd 1 (Z.of_nat nwords * 3) t).

(** What readNData gives back: failure and the buffer as it was when the
    command was not acknowledged or the bytes did not come; else whether
    every group had the right CRC, and the buffer with the words before
    the first wrong group written over its start. *)
Definition readNData_result (cmd : Z) (out : list Z) (nwords : nat) (t : T)
  : bool * list Z :=
  let bytes := fst (rx_bytes (nwords * 3) (poll_bus cmd nwords t)) in
  if (fst (tx_bus cmd [] t) =? 0)
     && (Z.of_nat nwords * 3 <=? available (poll_bus cmd nwords t))
  then (all_crc_ok nwords bytes, overwrite 0 (valid_prefix nwords bytes) out)
  else (false, out).

(** The nine bytes readMeasurement and readSerialNumber take from the
    bus, and whether they get that far. *)
Definition nine_bus (cmd : Z) (t : T) : T := request_bus cmd 5 9 t.

Definition nine_ready (cmd : Z) (t : T) : bool :=
  (fst (tx_bus cmd [] t) =? 0) && (9 <=? available (nine_bus cmd t)).

Definition nine_bytes (cmd : Z) (t : T) : list Z := fst (rx_bytes 9 (nine_bus cmd t)).

(** What readNData1 gives back. *)
Definition readNData1_result (cmd word : Z) (t : T) : bool * Z :=
  let r := readNData_result cmd [word] 1 t in (fst r, nth 0 (snd r) word).

End Driver.

(** begin (lines 60-93), on a core that is neither ESP32 nor ESP8266.
    [address] is the member as it is when the call starts: the wake-up and
    the re-initialisation are sent before [address = i2cAddr].  The result
    comes with the new value of the member. *)
Definition begin {T : Type} {wire : TwoWire T} (address : Z) (ids : CommandIds)
  (i2cAddr sda scl i2cFreq : Z) : M T (bool * Z) :=
  (i2c_begin ;;
   i2c_setClock i2cFreq ;;
   wakeUp address ids ;;
   delay 100 ;;
   reInit address ids ;;
   delay 100 ;;
   let address' := i2cAddr in
   sendCommand address' (STOP_PERIODIC_MEASUREMENT_CMD_ID ids) ;;
   delay 5 ;;
   r <- readSerialNumber address' ids 0 ;;
   if fst r then ret (true, address') else ret (false, address'))%drv.

(** A getter of one word behaves well when it always returns within
    102 ms, leaves the caller's variable as it was when it fails, and
    gives a 16-bit word when it succeeds. *)
Definition keeps_variable_on_failure {T : Type} (get : Z -> M T (bool * Z)) : Prop :=
  forall word w, exists res w',
    get word w = Some (res, w') /\
    (fst res = false -> snd res = word) /\
    (fst res = true -> is_u16 (snd res)) /\
    clock w <= clock w' <= clock w + 102.

(** A method is one write transaction when all it does is begin a
    transmission to [address], write the frame of [cmd] and [words], end
    the transmission and return whether the status was 0; no time
    passes. *)
Definition one_transaction {T : Type} {wire : TwoWire T} (address : Z)
  (method : M T bool) (cmd : Z) (words : list Z) : Prop :=
  forall w,
    method w =
    Some (fst (endTransmission
                 (wire_bytes (frame cmd words) (beginTransmission address (i2c w)))) =? 0,
          mkWorld (snd (endTransmission
                          (wire_bytes (frame cmd words)
                                      (beginTransmission address (i2c w)))))
                  (clock w)).

(** The bus on which begin starts its read of the serial number. *)
Definition begin_bus {T : Type} {wire : TwoWire T} (address : Z) (ids : CommandIds)
  (i2cAddr i2cFreq : Z) (t : T) : T :=
  let t1 := snd (tx_bus address (WAKE_UP_CMD_ID ids) [] (setClock i2cFreq (wire_begin t))) in
  let t2 := snd (tx_bus address (REINIT_CMD_ID ids) [] (idle 100 t1)) in
  idle 5 (snd (tx_bus i2cAddr (STOP_PERIODIC_MEASUREMENT_CMD_ID ids) [] (idle 100 t2))).

(** ** A scripted bus

    The calls are recorded in [trace]; [acks] are the statuses the coming
    [endTransmission] calls report (success once the script is used up),
    [replies] the bytes the device sends to the coming [requestFrom]
    calls (nothing once used up); [rx] is the receive buffer. *)
Inductive BusEvent :=
| EvInit
| EvClock (f : Z)
| EvBegin (a : Z)
| EvWrite (b : Z)
| EvEnd
| EvRequest (a n : Z)
| EvRead.

Record Mock := mkMock {
  trace : list BusEvent;
  rx : list Z;
  acks : list Z;
  replies : list (list Z)
}.

Definition mock_log (e : BusEvent) (m : Mock) : Mock :=
  mkMock (trace m ++ [e]) (rx m) (acks m) (replies m).

Definition mock_endTransmission (m : Mock) : Z * Mock :=
  match acks m with
  | [] => (0, mkMock (trace m ++ [EvEnd]) (rx m) [] (replies m))
  | st :: rest => (st, mkMock (trace m ++ [EvEnd]) (rx m) rest (replies m))
  end.

Definition mock_requestFrom (a n : Z) (m : Mock) : Mock :=
  match replies m with
  | [] => mkMock (trace m ++ [EvRequest a n]) [] (acks m) []
  | r :: rest => mkMock (trace m ++ [EvRequest a n]) (take (Z.to_nat n) r) (acks m) rest
  end.

Definition mock_read (m : Mock) : Z * Mock :=
  match rx m with
  | [] => (-1, mock_log EvRead m)
  | b :: rest => (b, mkMock (trace m ++ [EvRead]) rest (acks m) (replies m))
  end.

#[export] Instance mock_wire : TwoWire Mock := {
  wire_begin := mock_log EvInit;
  setClock f := mock_log (EvClock f);
  beginTransmission a := mock_log (EvBegin a);
  write b := mock_log (EvWrite b);
  endTransmission := mock_endTransmission;
  requestFrom := mock_requestFrom;
  available m := Z.of_nat (length (rx m));
  read := mock_read;
  idle _ m := m
}.

(** A device with the scripts [acks] and [replies], at time 0. *)
Definition mock_world (acks : list Z) (replies : list (list Z)) : World Mock :=
  mkWorld (mkMock [] [] acks replies) 0.

(** A device that acknowledges everything and answers the next request
    with [reply]. *)
Definition mock_with (reply : list Z) : World Mock := mock_world [] [reply].

(** A device whose reply is the group of 0x1234, then the bytes 0x56,
    0x78 with a wrong CRC byte, then the group of 0x9ABC. *)
Definition mock_second_crc_bad : World Mock :=
  mock_with (word_group 0x1234 ++ [0x56; 0x78; 0] ++ word_group 0x9ABC).

(** A device that acknowledges and never sends a byte. *)
Definition mock_silent : World Mock := mock_world [] [].

(** The opcodes of the data sheet, for the examples. *)
Definition scd4x_ids : CommandIds := {|
  START_PERIODIC_MEASUREMENT_CMD_ID := 0x21B1;
  START_LOW_POWER_PERIODIC_MEASUREMENT_CMD_ID := 0x21AC;
  STOP_PERIODIC_MEASUREMENT_CMD_ID := 0x3F86;
  GET_DATA_READY_STATUS_RAW_CMD_ID := 0xE4B8;
  READ_MEASUREMENT_RAW_CMD_ID := 0xEC05;
  MEASURE_SINGLE_SHOT_CMD_ID := 0x219D;
  MEASURE_SINGLE_SHOT_RHT_ONLY_CMD_ID := 0x2196;
  SET_TEMPERATURE_OFFSET_RAW_CMD_ID := 0x241D;
  GET_TEMPERATURE_OFFSET_RAW_CMD_ID := 0x2318;
  SET_SENSOR_ALTITUDE_CMD_ID := 0x2427;
  GET_SENSOR_ALTITUDE_CMD_ID := 0x2322;
  SET_AMBIENT_PRESSURE_RAW_CMD_ID := 0xE000;
  GET_AMBIENT_PRESSURE_RAW_CMD_ID := 0xE000;
  SET_AUTOMATIC_SELF_CALIBRATION_ENABLED_CMD_ID := 0x2416;
  GET_AUTOMATIC_SELF_CALIBRATION_ENABLED_CMD_ID := 0x2313;
  SET_AUTOMATIC_SELF_CALIBRATION_TARGET_CMD_ID := 0x243A;
  GET_AUTOMATIC_SELF_CALIBRATION_TARGET_CMD_ID := 0x233F;
  SET_AUTOMATIC_SELF_CALIBRATION_INITIAL_PERIOD_CMD_ID := 0x2445;
  GET_AUTOMATIC_SELF_CALIBRATION_INITIAL_PERIOD_CMD_ID := 0x2340;
  SET_AUTOMATIC_SELF_CALIBRATION_STANDARD_PERIOD_CMD_ID := 0x244E;
  GET_AUTOMATIC_SELF_CALIBRATION_STANDARD_PERIOD_CMD_ID := 0x234B;
  PERFORM_FORCED_RECALIBRATION_CMD_ID := 0x362F;
  PERSIST_SETTINGS_CMD_ID := 0x3615;
  GET_SERIAL_NUMBER_CMD_ID := 0x3682;
  GET_SENSOR_VARIANT_RAW_CMD_ID := 0x202F;
  PERFORM_SELF_TEST_CMD_ID := 0x3639;
  PERFORM_FACTORY_RESET_CMD_ID := 0x3632;
  REINIT_CMD_ID := 0x3646;
  POWER_DOWN_CMD_ID := 0x36E0;
  WAKE_UP_CMD_ID := 0x36F6
|}.

(** * Proofs *)

(** ** Exhaustive checks over bytes and words *)


Lemma all_bytes_complete b : is_u8 b -> In b all_bytes.
Proof.
  intros [H0 H1]. unfold all_bytes.
  rewrite <- (Z2Nat.id b) by lia.
  apply in_map, in_seq. lia.
Qed.

Lemma all_words_complete w : is_u16 w -> In w all_words.
Proof.
  intros [H0 H1]. unfold all_words.
  apply in_flat_map. exists (w / 256). split.
  - apply all_bytes_complete. unfold is_u8.
    split; [apply Z.div_pos; lia | apply Z.div_lt_upper_bound; lia].
  - rewrite (Z.div_mod w 256) at 1 by lia.
    apply in_map, all_bytes_complete. unfold is_u8. apply Z.mod_pos_bound. lia.
Qed.

Lemma forallb_bytes (P : Z -> bool) :
  forallb P all_bytes = true -> forall b, is_u8 b -> P b = true.
Proof.
  intros H b Hb. rewrite forallb_forall in H. apply H, all_bytes_complete, Hb.
Qed.

Lemma forallb_words (P : Z -> bool) :
  forallb P all_words = true -> forall w, is_u16 w -> P w = true.
Proof.
  intros H w Hw. rewrite forallb_forall in H. apply H, all_words_complete, Hw.
Qed.

(** ** Properties of the CRC *)

Lemma crc_round_spec_shift c : is_u8 c -> crc_round c = spec_shift c.
Proof.
  intros Hc.
  assert (H : (crc_round c =? spec_shift c) = true).
  { revert c Hc. apply forallb_bytes. vm_compute. reflexivity. }
  apply Z.eqb_eq, H.
Qed.

Lemma crc_round_range c : is_u8 (crc_round c).
Proof.
  unfold crc_round, u8, is_u8.
  destruct (negb _); apply Z.mod_pos_bound; lia.
Qed.

Lemma crc_rounds_range n c : is_u8 c -> is_u8 (crc_rounds n c).
Proof.
  revert c. induction n as [|n IH]; intros c Hc; simpl; [exact Hc|].
  apply IH, crc_round_range.
Qed.

Lemma crc8_range b0 b1 : is_u8 (crc8 b0 b1).
Proof.
  unfold crc8. apply crc_rounds_range.
  unfold u8, is_u8. apply Z.mod_pos_bound. lia.
Qed.

Lemma crc_rounds_iter n c :
  is_u8 c -> crc_rounds n c = Nat.iter n spec_shift c.
Proof.
  revert c. induction n as [|n IH]; intros c Hc; [reflexivity|].
  change (crc_rounds (S n) c) with (crc_rounds n (crc_round c)).
  rewrite IH by apply crc_round_range.
  rewrite crc_round_spec_shift by exact Hc.
  symmetry. apply Nat.iter_succ_r.
Qed.

Lemma lxor_u8 a b : is_u8 a -> is_u8 b -> is_u8 (Z.lxor a b).
Proof.
  intros Ha Hb.
  assert (H : (forallb (fun a => forallb (fun b =>
             (0 <=? Z.lxor a b) && (Z.lxor a b <? 256)) all_bytes) all_bytes) = true)
    by (vm_compute; reflexivity).
  pose proof (forallb_bytes _ H a Ha) as H1. cbv beta in H1.
  pose proof (forallb_bytes _ H1 b Hb) as H2. cbv beta in H2.
  apply andb_prop in H2 as [H2 H3]. unfold is_u8. lia.
Qed.

Lemma u8_small x : is_u8 x -> u8 x = x.
Proof. intros H. apply Z.mod_small, H. Qed.

Lemma crc8_refines_spec b0 b1 :
  is_u8 b0 -> is_u8 b1 -> crc8 b0 b1 = crc8_spec [b0; b1].
Proof.
  intros H0 H1.
  assert (Hff : is_u8 255) by (unfold is_u8; lia).
  pose proof (lxor_u8 _ _ Hff H0) as Hx.
  pose proof (crc_rounds_range 8 _ Hx) as Hy.
  pose proof (lxor_u8 _ _ Hy H1) as Hz.
  change (crc8 b0 b1) with
    (crc_rounds 8 (u8 (Z.lxor (crc_rounds 8 (u8 (Z.lxor 255 b0))) b1))).
  change (crc8_spec [b0; b1]) with
    (Nat.iter 8 spec_shift (Z.lxor (Nat.iter 8 spec_shift (Z.lxor 255 b0)) b1)).
  rewrite (u8_small _ Hx), (u8_small _ Hz).
  rewrite (crc_rounds_iter 8 _ Hz), (crc_rounds_iter 8 _ Hx).
  reflexivity.
Qed.

Lemma crc8_is_poly_remainder b0 b1 :
  is_u8 b0 -> is_u8 b1 -> crc8 b0 b1 = crc8_poly b0 b1.
Proof.
  intros H0 H1.
  assert (H : forallb (fun a => forallb (fun b => crc8 a b =? crc8_poly a b)
                                  all_bytes) all_bytes = true)
    by (vm_compute; reflexivity).
  pose proof (forallb_bytes _ H b0 H0) as Ha. cbv beta in Ha.
  pose proof (forallb_bytes _ Ha b1 H1) as Hb. cbv beta in Hb.
  apply Z.eqb_eq, Hb.
Qed.

(** *** Single-bit sensitivity of the CRC

    One round is invertible on bytes (the polynomial has a constant term),
    so the eight rounds are injective; a changed byte therefore always
    changes the checksum. *)


Lemma crc_unround_round c : is_u8 c -> crc_unround (crc_round c) = c.
Proof.
  intros Hc.
  assert (H : (crc_unround (crc_round c) =? c) = true).
  { revert c Hc. apply forallb_bytes. vm_compute. reflexivity. }
  apply Z.eqb_eq, H.
Qed.

Lemma crc_unrounds_rounds n c : is_u8 c -> crc_unrounds n (crc_rounds n c) = c.
Proof.
  revert c. induction n as [|n IH]; intros c Hc; [reflexivity|].
  change (crc_rounds (S n) c) with (crc_rounds n (crc_round c)).
  change (crc_unrounds (S n) (crc_rounds n (crc_round c)))
    with (crc_unround (crc_unrounds n (crc_rounds n (crc_round c)))).
  rewrite IH by apply crc_round_range.
  apply crc_unround_round, Hc.
Qed.

Lemma crc_rounds_inj n a b :
  is_u8 a -> is_u8 b -> crc_rounds n a = crc_rounds n b -> a = b.
Proof.
  intros Ha Hb H.
  rewrite <- (crc_unrounds_rounds n a Ha), <- (crc_unrounds_rounds n b Hb).
  f_equal. exact H.
Qed.


Lemma bit_mask_u8 j : is_u8 (bit_mask j).
Proof.
  unfold bit_mask, is_u8. rewrite Z.shiftl_1_l.
  pose proof (Nat.mod_upper_bound j 8 ltac:(lia)) as Hj.
  split; [apply Z.lt_le_incl, Z.pow_pos_nonneg; lia|].
  change 256 with (2 ^ 8). apply Z.pow_lt_mono_r; lia.
Qed.

Lemma bit_mask_pos j : 0 < bit_mask j.
Proof.
  unfold bit_mask. rewrite Z.shiftl_1_l. apply Z.pow_pos_nonneg; lia.
Qed.

Lemma lxor_mask_neq c j : Z.lxor c (bit_mask j) <> c.
Proof.
  intros H.
  assert (Z.lxor c (Z.lxor c (bit_mask j)) = Z.lxor c c) by (f_equal; exact H).
  rewrite Z.lxor_nilpotent, <- Z.lxor_assoc, Z.lxor_nilpotent, Z.lxor_0_l in H0.
  pose proof (bit_mask_pos j). lia.
Qed.

Lemma crc8_unfold b0 b1 :
  crc8 b0 b1 = crc_rounds 8 (u8 (Z.lxor (crc_rounds 8 (u8 (Z.lxor 255 b0))) b1)).
Proof. reflexivity. Qed.

Lemma crc8_flip_b1 b0 b1 j :
  is_u8 b1 -> crc8 b0 (Z.lxor b1 (bit_mask j)) <> crc8 b0 b1.
Proof.
  intros H1 H.
  pose proof (bit_mask_u8 j) as Hm.
  assert (Hx : is_u8 (crc_rounds 8 (u8 (Z.lxor 255 b0)))).
  { apply crc_rounds_range. unfold u8, is_u8. apply Z.mod_pos_bound. lia. }
  rewrite !crc8_unfold in H.
  generalize dependent (crc_rounds 8 (u8 (Z.lxor 255 b0))). intros x H Hx.
  pose proof (lxor_u8 _ _ H1 Hm) as H1'.
  rewrite (u8_small _ (lxor_u8 _ _ Hx H1')), (u8_small _ (lxor_u8 _ _ Hx H1)) in H.
  apply crc_rounds_inj in H; [| apply lxor_u8; assumption ..].
  rewrite <- Z.lxor_assoc in H. exact (lxor_mask_neq _ _ H).
Qed.

Lemma crc8_flip_b0 b0 b1 j :
  is_u8 b0 -> is_u8 b1 -> crc8 (Z.lxor b0 (bit_mask j)) b1 <> crc8 b0 b1.
Proof.
  intros H0 H1 H.
  pose proof (bit_mask_u8 j) as Hm.
  assert (Hff : is_u8 255) by (unfold is_u8; lia).
  pose proof (lxor_u8 _ _ H0 Hm) as H0'.
  pose proof (lxor_u8 _ _ Hff H0) as Ha.
  pose proof (lxor_u8 _ _ Hff H0') as Ha'.
  rewrite !crc8_unfold in H.
  rewrite (u8_small _ Ha), (u8_small _ Ha') in H.
  pose proof (crc_rounds_range 8 _ Ha) as Hx.
  pose proof (crc_rounds_range 8 _ Ha') as Hx'.
  rewrite (u8_small _ (lxor_u8 _ _ Hx H1)), (u8_small _ (lxor_u8 _ _ Hx' H1)) in H.
  apply crc_rounds_inj in H; [| apply lxor_u8; assumption ..].
  assert (Hc : crc_rounds 8 (Z.lxor 255 (Z.lxor b0 (bit_mask j)))
               = crc_rounds 8 (Z.lxor 255 b0)).
  { rewrite <- (Z.lxor_0_r (crc_rounds 8 (Z.lxor 255 (Z.lxor b0 (bit_mask j))))).
    rewrite <- (Z.lxor_nilpotent b1), <- Z.lxor_assoc, H, Z.lxor_assoc.
    rewrite Z.lxor_nilpotent. apply Z.lxor_0_r. }
  apply crc_rounds_inj in Hc; [| assumption ..].
  rewrite <- Z.lxor_assoc in Hc. exact (lxor_mask_neq _ _ Hc).
Qed.

Lemma word_group_bytes w :
  is_u16 w -> is_u8 (u8 (Z.shiftr w 8)) /\ is_u8 (u8 (Z.land w 0xFF)).
Proof.
  intros _. unfold u8, is_u8. split; apply Z.mod_pos_bound; lia.
Qed.

Lemma word_reassemble w :
  is_u16 w -> u16 (Z.lor (Z.shiftl (u8 (Z.shiftr w 8)) 8) (u8 (Z.land w 0xFF))) = w.
Proof.
  intros Hw.
  assert (H : (u16 (Z.lor (Z.shiftl (u8 (Z.shiftr w 8)) 8) (u8 (Z.land w 0xFF))) =? w)
              = true).
  { revert w Hw. apply forallb_words. vm_compute. reflexivity. }
  apply Z.eqb_eq, H.
Qed.

Lemma checkCrc_group_ok w old : is_u16 w -> checkCrc (word_group w) old = (true, w).
Proof.
  intros Hw. unfold checkCrc, word_group. cbn [nth].
  rewrite Z.eqb_refl. cbn [negb]. rewrite word_reassemble by exact Hw. reflexivity.
Qed.

Lemma checkCrc_mismatch b0 b1 c rest old :
  crc8 b0 b1 <> c -> checkCrc (b0 :: b1 :: c :: rest) old = (false, old).
Proof.
  intros H. unfold checkCrc. cbn [nth].
  apply Z.eqb_neq in H. rewrite H. reflexivity.
Qed.

Lemma checkCrc_flip w k old :
  is_u16 w -> (k < 24)%nat -> checkCrc (flip_bit k (word_group w)) old = (false, old).
Proof.
  intros Hw Hk.
  destruct (word_group_bytes w Hw) as [Hb0 Hb1].
  unfold word_group, flip_bit.
  set (b0 := u8 (Z.shiftr w 8)) in *. set (b1 := u8 (Z.land w 0xFF)) in *.
  fold (bit_mask k).
  assert (Hcase : (k / 8 = 0 \/ k / 8 = 1 \/ k / 8 = 2)%nat).
  { pose proof (Nat.Div0.div_lt_upper_bound k 8 3). lia. }
  destruct Hcase as [-> | [-> | ->]]; cbn [lookup list_lookup insert list_insert].
  - apply checkCrc_mismatch, crc8_flip_b0; assumption.
  - apply checkCrc_mismatch, crc8_flip_b1; assumption.
  - apply checkCrc_mismatch. intros H. symmetry in H. exact (lxor_mask_neq _ _ H).
Qed.

(** C1. [crc8] is the Sensirion CRC-8 -- seed 0xFF, polynomial 0x31 --
    on every pair of bytes: it agrees with the algorithm as the
    specification words it (XOR the byte in, then eight shift-and-XOR
    rounds, for each of the two bytes), it is the remainder of the
    polynomial division by x^8 + x^5 + x^4 + 1, its value is a byte (the
    function is total and has no state), and crc8(0xBE, 0xEF) = 0x92. *)
Theorem crc8_sensirion :
  (forall b0 b1, is_u8 b0 -> is_u8 b1 ->
     crc8 b0 b1 = crc8_spec [b0; b1] /\
     crc8 b0 b1 = crc8_poly b0 b1 /\
     is_u8 (crc8 b0 b1)) /\
  crc8 0xBE 0xEF = 0x92.
Proof.
  split; [|reflexivity].
  intros b0 b1 H0 H1. split; [|split].
  - apply crc8_refines_spec; assumption.
  - apply crc8_is_poly_remainder; assumption.
  - apply crc8_range.
Qed.

Lemma crc8_sensirion_witness :
  crc8 0x12 0x34 = crc8_spec [0x12; 0x34] /\
  crc8 0x12 0x34 = crc8_poly 0x12 0x34 /\
  is_u8 (crc8 0x12 0x34).
Proof.
  apply (proj1 crc8_sensirion 0x12 0x34); unfold is_u8; lia.
Defined.

(** C2. Encoding a 16-bit word as [MSB, LSB, crc8(MSB, LSB)] and decoding
    it with [checkCrc] succeeds and gives the word back; flipping any one
    of the 24 bits of the group makes [checkCrc] fail (and leave the
    caller's word as it was). *)
Theorem word_crc_round_trip_and_bit_flips w old :
  is_u16 w ->
  checkCrc (word_group w) old = (true, w) /\
  forall k, (k < 24)%nat -> checkCrc (flip_bit k (word_group w)) old = (false, old).
Proof.
  intros Hw. split.
  - apply checkCrc_group_ok, Hw.
  - intros k Hk. apply checkCrc_flip; assumption.
Qed.

Lemma word_crc_round_trip_and_bit_flips_witness :
  checkCrc (word_group 0xBEEF) 7 = (true, 0xBEEF) /\
  forall k, (k < 24)%nat -> checkCrc (flip_bit k (word_group 0xBEEF)) 7 = (false, 7).
Proof.
  apply (word_crc_round_trip_and_bit_flips 0xBEEF 7). unfold is_u16. lia.
Defined.
(** ** The transport layer *)

Lemma u8_shiftr_div w : u8 (Z.shiftr w 8) = w / 256 mod 256.
Proof. unfold u8. rewrite Z.shiftr_div_pow2 by lia. reflexivity. Qed.

Lemma u8_land_mod w : u8 (Z.land w 0xFF) = w mod 256.
Proof.
  change 0xFF with (Z.ones 8). rewrite Z.land_ones by lia.
  unfold u8. apply Z.mod_mod. lia.
Qed.

Lemma u32_elapsed c j : 0 <= j < 4294967296 -> u32 (u32 (c + j) - u32 c) = j.
Proof.
  intros Hj. unfold u32.
  rewrite Zminus_mod_idemp_l, Zminus_mod_idemp_r.
  replace (c + j - c) with j by lia. apply Z.mod_small, Hj.
Qed.

Lemma overwrite_nil i out : overwrite i [] out = out.
Proof.
  unfold overwrite. cbn [app length]. rewrite Nat.add_0_r. apply take_drop.
Qed.

Lemma overwrite_cons out : forall i v ws,
  (i < length out)%nat ->
  overwrite (S i) ws (<[i := v]> out) = overwrite i (v :: ws) out.
Proof.
  induction out as [|x out IH]; intros i v ws Hi; [cbn in Hi; lia|].
  destruct i as [|i].
  - reflexivity.
  - cbn in Hi. specialize (IH i v ws ltac:(lia)).
    unfold overwrite in *. cbn [insert list_insert take drop app Nat.add length] in *.
    f_equal. exact IH.
Qed.


Lemma valid_prefix_words n : forall bytes, Forall is_u16 (valid_prefix n bytes).
Proof.
  induction n as [|n IH]; intros bytes; [constructor|].
  destruct bytes as [|b0 [|b1 [|c rest]]]; cbn [valid_prefix]; try constructor.
  destruct (crc8 b0 b1 =? c); constructor; [|apply IH].
  unfold is_u16, u16. apply Z.mod_pos_bound. lia.
Qed.

Section Transport.
Context {T : Type} {wire : TwoWire T}.
Variable address : Z.

Lemma wire_bytes_app bs cs (t : T) :
  wire_bytes (bs ++ cs) t = wire_bytes cs (wire_bytes bs t).
Proof. apply fold_left_app. Qed.

Lemma tx_words_run words : forall w : World T,
  tx_words words w = Some (tt, mkWorld (wire_bytes (drop 2 (frame 0 words)) (i2c w)) (clock w)).
Proof.
  induction words as [|x rest IH]; intros w.
  - destruct w; reflexivity.
  - cbn [tx_words]. unfold bind, i2c_write. cbn [i2c clock]. rewrite IH. cbn [i2c clock].
    rewrite u8_shiftr_div, u8_land_mod. reflexivity.
Qed.

Lemma txCommand_run cmd words (w : World T) :
  txCommand address cmd words w =
  Some (fst (tx_bus address cmd words (i2c w)) =? 0,
        mkWorld (snd (tx_bus address cmd words (i2c w))) (clock w)).
Proof.
  unfold txCommand, bind, i2c_beginTransmission, i2c_write, i2c_endTransmission, ret.
  cbn [i2c clock]. rewrite tx_words_run. cbn [i2c clock].
  rewrite u8_shiftr_div, u8_land_mod.
  unfold tx_bus, frame. rewrite wire_bytes_app.
  cbn [wire_bytes fold_left drop app].
  destruct (endTransmission _) as [st t']. reflexivity.
Qed.

Lemma rx_bytes_length n : forall t : T, length (fst (rx_bytes n t)) = n.
Proof.
  induction n as [|n IH]; intros t; [reflexivity|].
  cbn [rx_bytes]. destruct (read t) as [b t1]. specialize (IH t1).
  destruct (rx_bytes n t1) as [bs t2]. cbn [fst length] in *. lia.
Qed.

Lemma read_raw_run n : forall w : World T,
  read_raw n w = Some (fst (rx_bytes n (i2c w)), mkWorld (snd (rx_bytes n (i2c w))) (clock w)).
Proof.
  induction n as [|n IH]; intros w.
  - destruct w; reflexivity.
  - cbn [read_raw rx_bytes]. unfold bind, i2c_read.
    destruct (read (i2c w)) as [b t1]. rewrite IH. cbn [i2c clock].
    destruct (rx_bytes n t1) as [bs t2]. reflexivity.
Qed.

Lemma read_words_run count : forall i out (w : World T),
  (i + count <= length out)%nat ->
  exists t',
    read_words count i out w =
    Some ((all_crc_ok count (fst (rx_bytes (count * 3) (i2c w))),
           overwrite i (valid_prefix count (fst (rx_bytes (count * 3) (i2c w)))) out),
          mkWorld t' (clock w)).
Proof.
  induction count as [|count IH]; intros i out w Hlen.
  - exists (i2c w). cbn. rewrite overwrite_nil. destruct w; reflexivity.
  - cbn [read_words Nat.mul Nat.add rx_bytes]. unfold bind, i2c_read.
    destruct (read (i2c w)) as [x0 t1]. cbn [i2c clock].
    destruct (read t1) as [x1 t2]. cbn [i2c clock].
    destruct (read t2) as [x2 t3]. cbn [i2c clock].
    specialize (IH (S i) (<[i := u16 (Z.lor (Z.shiftl (u8 x0) 8) (u8 x1))]> out)
                   (mkWorld t3 (clock w))).
    cbn [i2c clock] in IH.
    destruct (rx_bytes (count * 3) t3) as [bs t4]. cbn [fst] in *.
    unfold all_crc_ok in *. cbn [valid_prefix].
    destruct (crc8 (u8 x0) (u8 x1) =? u8 x2); cbn [negb].
    + destruct IH as [t' IH]; [rewrite length_insert; lia|].
      exists t'. rewrite IH. cbn [length Nat.eqb].
      rewrite overwrite_cons by lia. reflexivity.
    + exists t3. cbn [length Nat.eqb]. rewrite overwrite_nil. reflexivity.
Qed.

Lemma idle_rounds_S k (t : T) : idle_rounds (S k) t = idle_rounds k (idle 1 t).
Proof. unfold idle_rounds. apply Nat.iter_succ_r. Qed.

Lemma rounds_waited_le n nbytes : forall t : T, (rounds_waited n nbytes t <= n)%nat.
Proof.
  induction n as [|n IH]; intros t; cbn [rounds_waited]; [lia|].
  destruct (available t <? nbytes); [specialize (IH (idle 1 t))|]; lia.
Qed.

Lemma rounds_waited_ready n nbytes (t : T) :
  nbytes <= available t -> rounds_waited n nbytes t = 0%nat.
Proof.
  intros H. destruct n; cbn [rounds_waited]; [reflexivity|].
  destruct (Z.ltb_spec (available t) nbytes); [lia | reflexivity].
Qed.

Lemma rounds_waited_starved n nbytes : forall t : T,
  (forall k, available (idle_rounds k t) < nbytes) -> rounds_waited n nbytes t = n.
Proof.
  induction n as [|n IH]; intros t H; cbn [rounds_waited]; [reflexivity|].
  pose proof (H 0%nat) as H0. change (idle_rounds 0 t) with t in H0.
  destruct (Z.ltb_spec (available t) nbytes); [|lia].
  f_equal. apply IH. intros k. rewrite <- idle_rounds_S. apply H.
Qed.

Lemma rounds_waited_timeout n nbytes : forall t : T,
  available (idle_rounds (rounds_waited n nbytes t) t) < nbytes ->
  rounds_waited n nbytes t = n.
Proof.
  induction n as [|n IH]; intros t; cbn [rounds_waited]; [reflexivity|].
  destruct (Z.ltb_spec (available t) nbytes) as [Hlt|Hge].
  - rewrite idle_rounds_S. intros H. f_equal. apply IH, H.
  - change (idle_rounds 0 t) with t. lia.
Qed.

Lemma wait_available_run nbytes c0 fuel : forall (j : nat) (t : T),
  (j <= 101)%nat -> (102 <= fuel + j)%nat ->
  wait_available fuel nbytes (u32 c0) (mkWorld t (c0 + Z.of_nat j)) =
  Some (nbytes <=? available (idle_rounds (rounds_waited (101 - j) nbytes t) t),
        mkWorld (idle_rounds (rounds_waited (101 - j) nbytes t) t)
                (c0 + Z.of_nat j + Z.of_nat (rounds_waited (101 - j) nbytes t))).
Proof.
  induction fuel as [|fuel IH]; intros j t Hj Hfuel; [lia|].
  cbn [wait_available]. unfold bind, i2c_available, millis, ret. cbn [i2c clock].
  destruct (Z.ltb_spec (available t) nbytes) as [Hlt | Hge].
  - cbn [i2c clock]. rewrite u32_elapsed by lia.
    destruct (Z.gtb_spec (Z.of_nat j) 100) as [Hto | Hgo].
    + replace (101 - j)%nat with 0%nat by lia. cbn [rounds_waited].
      change (idle_rounds 0 t) with t.
      destruct (Z.leb_spec nbytes (available t)); [lia|].
      do 3 f_equal. lia.
    + unfold delay. cbn [i2c clock].
      replace (c0 + Z.of_nat j + 1) with (c0 + Z.of_nat (S j)) by lia.
      rewrite IH by lia.
      replace (101 - j)%nat with (S (101 - S j)) by lia. cbn [rounds_waited].
      destruct (Z.ltb_spec (available t) nbytes); [|lia].
      rewrite idle_rounds_S. do 3 f_equal. lia.
  - rewrite rounds_waited_ready by exact Hge. change (idle_rounds 0 t) with t.
    destruct (Z.leb_spec nbytes (available t)); [|lia].
    do 3 f_equal. lia.
Qed.

Lemma readNData_wait fuel cmd out nwords (w : World T) :
  (102 <= fuel)%nat ->
  readNData address fuel cmd out nwords w =
    (if fst (tx_bus address cmd [] (i2c w)) =? 0 then
       if Z.of_nat nwords * 3 <=? available (poll_bus address cmd nwords (i2c w)) then
         read_words nwords 0 out
           (mkWorld (poll_bus address cmd nwords (i2c w))
                    (clock w + 1 + Z.of_nat (poll_rounds address cmd nwords (i2c w))))
       else
         Some ((false, out),
               mkWorld (poll_bus address cmd nwords (i2c w))
                       (clock w + 1 + Z.of_nat (poll_rounds address cmd nwords (i2c w))))
     else Some ((false, out), mkWorld (snd (tx_bus address cmd [] (i2c w))) (clock w))).
Proof.
  intros Hfuel.
  unfold readNData, sendCommand, bind. rewrite txCommand_run.
  destruct (fst (tx_bus address cmd [] (i2c w)) =? 0); cbn [negb]; [|reflexivity].
  unfold delay, i2c_requestFrom, millis, ret. cbn [i2c clock].
  fold (request_bus address cmd 1 (Z.of_nat nwords * 3) (i2c w)).
  pose proof (wait_available_run (Z.of_nat nwords * 3) (clock w + 1) fuel 0
                (request_bus address cmd 1 (Z.of_nat nwords * 3) (i2c w))
                ltac:(lia) ltac:(lia)) as Hrun.
  rewrite Z.add_0_r in Hrun. change (101 - 0)%nat with 101%nat in Hrun.
  rewrite Hrun.
  fold (poll_rounds address cmd nwords (i2c w)).
  fold (poll_bus address cmd nwords (i2c w)).
  destruct (Z.of_nat nwords * 3 <=? available (poll_bus address cmd nwords (i2c w)));
    reflexivity.
Qed.

Lemma readNData_run fuel cmd out nwords (w : World T) :
  (102 <= fuel)%nat -> (nwords <= length out)%nat ->
  exists w',
    readNData address fuel cmd out nwords w =
      Some (readNData_result address cmd out nwords (i2c w), w') /\
    clock w' = (if fst (tx_bus address cmd [] (i2c w)) =? 0
                then clock w + 1 + Z.of_nat (poll_rounds address cmd nwords (i2c w))
                else clock w).
Proof.
  intros Hfuel Hlen.
  rewrite (readNData_wait fuel cmd out nwords w Hfuel). unfold readNData_result.
  destruct (fst (tx_bus address cmd [] (i2c w)) =? 0); cbn [andb].
  - destruct (Z.of_nat nwords * 3 <=? available (poll_bus address cmd nwords (i2c w))).
    + destruct (read_words_run nwords 0 out
                  (mkWorld (poll_bus address cmd nwords (i2c w))
                           (clock w + 1 + Z.of_nat (poll_rounds address cmd nwords (i2c w))))
                  ltac:(lia)) as [t' Hrw].
      cbn [i2c clock] in Hrw. rewrite Hrw. eexists. split; reflexivity.
    + eexists. split; reflexivity.
  - eexists. split; reflexivity.
Qed.

Lemma readNData_starved fuel cmd out nwords (w : World T) :
  (102 <= fuel)%nat ->
  (forall k, available (idle_rounds k (request_bus address cmd 1 (Z.of_nat nwords * 3)
                                         (i2c w))) < Z.of_nat nwords * 3) ->
  exists w',
    readNData address fuel cmd out nwords w = Some ((false, out), w') /\
    clock w' = (if fst (tx_bus address cmd [] (i2c w)) =? 0
                then clock w + 102 else clock w).
Proof.
  intros Hfuel Hstarved.
  rewrite (readNData_wait fuel cmd out nwords w Hfuel).
  pose proof (Hstarved (poll_rounds address cmd nwords (i2c w))) as Hlast.
  fold (poll_bus address cmd nwords (i2c w)) in Hlast.
  assert (Hk : poll_rounds address cmd nwords (i2c w) = 101%nat)
    by (apply rounds_waited_starved, Hstarved).
  destruct (fst (tx_bus address cmd [] (i2c w)) =? 0).
  - destruct (Z.leb_spec (Z.of_nat nwords * 3)
                (available (poll_bus address cmd nwords (i2c w)))); [lia|].
    eexists. split; [reflexivity|]. cbn [clock]. rewrite Hk. lia.
  - eexists. split; reflexivity.
Qed.

Lemma poll_rounds_le cmd nwords (t : T) : (poll_rounds address cmd nwords t <= 101)%nat.
Proof. apply rounds_waited_le. Qed.

End Transport.
(** ** The nine-byte reads *)

Lemma three_words_checkCrc {A : Type} (raw : list Z) (k_fail : A) (k_ok : Z -> Z -> Z -> A) :
  length raw = 9%nat ->
  (let '(ok0, a) := checkCrc (drop 0 raw) 0 in
   if negb ok0 then k_fail else
   let '(ok1, b) := checkCrc (drop 3 raw) 0 in
   if negb ok1 then k_fail else
   let '(ok2, c) := checkCrc (drop 6 raw) 0 in
   if negb ok2 then k_fail else k_ok a b c) =
  match three_words raw with
  | Some (a, b, c) => k_ok a b c
  | None => k_fail
  end.
Proof.
  intros Hlen.
  do 9 (destruct raw as [|? raw]; [discriminate Hlen|]).
  destruct raw; [|discriminate Hlen].
  unfold three_words, checkCrc. cbn [drop nth valid_prefix].
  repeat (match goal with |- context [crc8 ?a ?b =? ?c] => destruct (crc8 a b =? c) end;
          cbn [negb]; try reflexivity).
Qed.

Lemma three_words_u16 raw a b c :
  three_words raw = Some (a, b, c) -> is_u16 a /\ is_u16 b /\ is_u16 c.
Proof.
  unfold three_words. intros H.
  pose proof (valid_prefix_words 3 raw) as Hw.
  destruct (valid_prefix 3 raw) as [|a' [|b' [|c' [|]]]]; try discriminate H.
  injection H as <- <- <-.
  inversion Hw as [|? ? Ha Hw1]; subst. inversion Hw1 as [|? ? Hb Hw2]; subst.
  inversion Hw2 as [|? ? Hc _]; subst. auto.
Qed.

Lemma three_words_groups a b c :
  is_u16 a -> is_u16 b -> is_u16 c ->
  three_words (word_group a ++ word_group b ++ word_group c) = Some (a, b, c).
Proof.
  intros Ha Hb Hc. unfold three_words, word_group. cbn [app valid_prefix].
  rewrite !Z.eqb_refl, !word_reassemble by assumption. reflexivity.
Qed.

Lemma three_words_all_crc_ok raw :
  all_crc_ok 3 raw = false -> three_words raw = None.
Proof.
  unfold all_crc_ok, three_words.
  destruct (valid_prefix 3 raw) as [|a [|b [|c [|]]]]; cbn; congruence.
Qed.

Section Reads.
Context {T : Type} {wire : TwoWire T}.
Variable address : Z.
Variable ids : CommandIds.

Lemma nine_read_run {A : Type} cmd (k_fail : A) (k_ok : Z -> Z -> Z -> A) (w : World T) :
  exists w',
    (ok <- sendCommand address cmd ;;
     if negb ok then ret k_fail else
     delay 5 ;;
     i2c_requestFrom (u8 address) (u8 9) ;;
     n <- i2c_available ;;
     if n <? 9 then ret k_fail else
     raw <- read_raw 9 ;;
     let '(ok0, a) := checkCrc (drop 0 raw) 0 in
     if negb ok0 then ret k_fail else
     let '(ok1, b) := checkCrc (drop 3 raw) 0 in
     if negb ok1 then ret k_fail else
     let '(ok2, c) := checkCrc (drop 6 raw) 0 in
     if negb ok2 then ret k_fail else
     ret (k_ok a b c))%drv w =
    Some (if nine_ready address cmd (i2c w) then
            match three_words (nine_bytes address cmd (i2c w)) with
            | Some (a, b, c) => k_ok a b c
            | None => k_fail
            end
          else k_fail, w') /\
    clock w' = (if fst (tx_bus address cmd [] (i2c w)) =? 0 then clock w + 5 else clock w).
Proof.
  unfold nine_ready, nine_bytes, nine_bus, sendCommand.
  unfold bind at 1. rewrite txCommand_run.
  destruct (fst (tx_bus address cmd [] (i2c w)) =? 0); cbn [negb andb];
    [|eexists; split; reflexivity].
  unfold bind at 1. unfold delay at 1. cbn [i2c clock].
  unfold bind at 1. unfold i2c_requestFrom at 1. cbn [i2c clock].
  fold (request_bus address cmd 5 9 (i2c w)).
  unfold bind at 1. unfold i2c_available at 1. cbn [i2c clock].
  destruct (Z.ltb_spec (available (request_bus address cmd 5 9 (i2c w))) 9) as [Hlt|Hge].
  - destruct (Z.leb_spec 9 (available (request_bus address cmd 5 9 (i2c w)))); [lia|].
    eexists; split; reflexivity.
  - destruct (Z.leb_spec 9 (available (request_bus address cmd 5 9 (i2c w)))); [|lia].
    unfold bind at 1. rewrite read_raw_run. cbn [i2c clock].
    rewrite (three_words_checkCrc _ (ret k_fail) (fun a b c => ret (k_ok a b c)))
      by apply rx_bytes_length.
    destruct (three_words (fst (rx_bytes 9 (request_bus address cmd 5 9 (i2c w)))))
      as [[[a b] c]|]; eexists; split; reflexivity.
Qed.

Lemma readMeasurement_run outs (w : World T) :
  exists w',
    readMeasurement address ids outs w =
    Some (if nine_ready address (READ_MEASUREMENT_RAW_CMD_ID ids) (i2c w) then
            match three_words (nine_bytes address (READ_MEASUREMENT_RAW_CMD_ID ids) (i2c w)) with
            | Some (co2_raw, t_raw, rh_raw) =>
                (true, (co2_raw, temp_of_raw t_raw, rh_of_raw rh_raw))
            | None => (false, outs)
            end
          else (false, outs), w') /\
    clock w' = (if fst (tx_bus address (READ_MEASUREMENT_RAW_CMD_ID ids) [] (i2c w)) =? 0
                then clock w + 5 else clock w).
Proof.
  exact (nine_read_run (READ_MEASUREMENT_RAW_CMD_ID ids) (false, outs)
           (fun a b c => (true, (a, temp_of_raw b, rh_of_raw c))) w).
Qed.

Lemma readSerialNumber_run sn (w : World T) :
  exists w',
    readSerialNumber address ids sn w =
    Some (if nine_ready address (GET_SERIAL_NUMBER_CMD_ID ids) (i2c w) then
            match three_words (nine_bytes address (GET_SERIAL_NUMBER_CMD_ID ids) (i2c w)) with
            | Some (w0, w1, w2) => (true, serial_of_words w0 w1 w2)
            | None => (false, sn)
            end
          else (false, sn), w') /\
    clock w' = (if fst (tx_bus address (GET_SERIAL_NUMBER_CMD_ID ids) [] (i2c w)) =? 0
                then clock w + 5 else clock w).
Proof.
  exact (nine_read_run (GET_SERIAL_NUMBER_CMD_ID ids) (false, sn)
           (fun a b c => (true, serial_of_words a b c)) w).
Qed.

(** ** One-word reads *)

Lemma readNData_result_one cmd word (t : T) :
  readNData_result address cmd [word] 1 t = (false, [word]) \/
  exists v, is_u16 v /\ readNData_result address cmd [word] 1 t = (true, [v]).
Proof.
  unfold readNData_result.
  destruct (_ && _); [|left; reflexivity].
  pose proof (rx_bytes_length 3 (poll_bus address cmd 1 t)) as Hlen.
  change (1 * 3)%nat with 3%nat.
  destruct (fst (rx_bytes 3 (poll_bus address cmd 1 t))) as [|b0 [|b1 [|c [|]]]];
    try discriminate Hlen.
  unfold all_crc_ok. cbn [valid_prefix].
  destruct (crc8 b0 b1 =? c).
  - right. eexists. split; [|reflexivity].
    unfold is_u16, u16. apply Z.mod_pos_bound. lia.
  - left. reflexivity.
Qed.

Lemma readNData1_result_cases cmd word (t : T) :
  readNData1_result address cmd word t = (false, word) \/
  exists v, is_u16 v /\ readNData1_result address cmd word t = (true, v).
Proof.
  unfold readNData1_result.
  destruct (readNData_result_one cmd word t) as [-> | (v & Hv & ->)].
  - left. reflexivity.
  - right. exists v. split; [exact Hv | reflexivity].
Qed.

Lemma readNData1_run fuel cmd word (w : World T) :
  (102 <= fuel)%nat ->
  exists w',
    readNData1 address fuel cmd word w =
      Some (readNData1_result address cmd word (i2c w), w') /\
    clock w' = (if fst (tx_bus address cmd [] (i2c w)) =? 0
                then clock w + 1 + Z.of_nat (poll_rounds address cmd 1 (i2c w))
                else clock w).
Proof.
  intros Hfuel.
  destruct (readNData_run address fuel cmd [word] 1 w Hfuel ltac:(cbn; lia))
    as (w' & Hrun & Hclk).
  exists w'. split; [|exact Hclk].
  unfold readNData1, bind. rewrite Hrun. reflexivity.
Qed.

End Reads.
(** ** The conversions on every raw word *)

Lemma temp_checked : forallb temp_check all_words = true.
Proof. vm_compute. reflexivity. Qed.

Lemma rh_checked : forallb rh_check all_words = true.
Proof. vm_compute. reflexivity. Qed.

Lemma offset_checked : forallb offset_check all_words = true.
Proof. vm_compute. reflexivity. Qed.

Lemma temp_of_raw_accurate t_raw :
  is_u16 t_raw ->
  is_finite (temp_of_raw t_raw) = true /\
  within (1 # 131072) (float_val (temp_of_raw t_raw)) (temp_exact t_raw) = true.
Proof.
  intros Hw. pose proof (forallb_words _ temp_checked t_raw Hw) as H.
  unfold temp_check in H. cbv zeta in H.
  apply andb_prop in H as [H _]. apply andb_prop in H as [H _].
  apply andb_prop in H as [H1 H2]. split; assumption.
Qed.

Lemma rh_of_raw_accurate rh_raw :
  is_u16 rh_raw ->
  is_finite (rh_of_raw rh_raw) = true /\
  within (1 # 262144) (float_val (rh_of_raw rh_raw)) (rh_exact rh_raw) = true.
Proof.
  intros Hw. pose proof (forallb_words _ rh_checked rh_raw Hw) as H.
  unfold rh_check in H. cbv zeta in H.
  apply andb_prop in H as [H _]. apply andb_prop in H as [H _].
  apply andb_prop in H as [H1 H2]. split; assumption.
Qed.

(** ** The serial number *)

Lemma lor_shiftl_add x b n :
  0 <= n -> 0 <= b < 2 ^ n -> Z.lor (Z.shiftl x n) b = x * 2 ^ n + b.
Proof.
  intros Hn Hb. rewrite Z.shiftl_mul_pow2 by exact Hn.
  symmetry. apply Z.add_nocarry_lor.
  apply Z.bits_inj'. intros i Hi.
  rewrite Z.land_spec, Z.bits_0.
  destruct (Z.lt_ge_cases i n) as [Hlt|Hge].
  - rewrite Z.mul_pow2_bits_low by exact Hlt. reflexivity.
  - rewrite <- (Z.mod_small b (2 ^ n)) by exact Hb.
    rewrite Z.mod_pow2_bits_high by lia. apply andb_false_r.
Qed.

Lemma serial_of_words_value w0 w1 w2 :
  is_u16 w0 -> is_u16 w1 -> is_u16 w2 ->
  serial_of_words w0 w1 w2 = Z.lor (Z.lor (Z.shiftl w0 32) (Z.shiftl w1 16)) w2 /\
  serial_of_words w0 w1 w2 = w0 * 2 ^ 32 + w1 * 2 ^ 16 + w2 /\
  0 <= serial_of_words w0 w1 w2 < 2 ^ 48.
Proof.
  unfold is_u16. intros H0 H1 H2.
  assert (Ha : Z.lor (Z.shiftl w0 32) (Z.shiftl w1 16) = Z.shiftl (w0 * 2 ^ 16 + w1) 16).
  { rewrite (Z.shiftl_mul_pow2 w1), (Z.shiftl_mul_pow2 (_ + _)) by lia.
    rewrite lor_shiftl_add by lia. lia. }
  assert (Hb : Z.lor (Z.lor (Z.shiftl w0 32) (Z.shiftl w1 16)) w2
               = w0 * 2 ^ 32 + w1 * 2 ^ 16 + w2).
  { rewrite Ha, lor_shiftl_add by lia. lia. }
  assert (Hs : serial_of_words w0 w1 w2 = w0 * 2 ^ 32 + w1 * 2 ^ 16 + w2).
  { unfold serial_of_words, u64.
    rewrite (Z.mod_small (Z.shiftl w0 32)) by (rewrite Z.shiftl_mul_pow2; lia).
    rewrite (Z.mod_small (Z.shiftl w1 16)) by (rewrite Z.shiftl_mul_pow2; lia).
    rewrite Hb. apply Z.mod_small. lia. }
  rewrite Hb. repeat split; try exact Hs; rewrite Hs; lia.
Qed.

(** ** The scripted bus *)

Lemma mock_wire_bytes bs : forall m : Mock,
  wire_bytes bs m = mkMock (trace m ++ map EvWrite bs) (rx m) (acks m) (replies m).
Proof.
  induction bs as [|b bs IH]; intros m.
  - cbn. rewrite app_nil_r. destruct m; reflexivity.
  - change (wire_bytes (b :: bs) m) with (wire_bytes bs (write b m)).
    rewrite IH. cbn. rewrite <- app_assoc. reflexivity.
Qed.

Lemma mock_tx_bus a cmd words (m : Mock) :
  tx_bus a cmd words m =
  (hd 0 (acks m),
   mkMock (trace m ++ [EvBegin a] ++ map EvWrite (frame cmd words) ++ [EvEnd])
          (rx m) (tl (acks m)) (replies m)).
Proof.
  unfold tx_bus. rewrite mock_wire_bytes. cbn.
  unfold mock_endTransmission. cbn.
  destruct (acks m) as [|st rest]; cbn; rewrite <- !app_assoc; reflexivity.
Qed.

Lemma mock_idle_rounds k (m : Mock) : idle_rounds k m = m.
Proof.
  induction k as [|k IH]; [reflexivity|].
  rewrite idle_rounds_S. exact IH.
Qed.
(** * The claims of the specification about reads, waits and framing *)



(** C4.  When readMeasurement succeeds, the three words it took from the
    bus all had a right CRC, the CO2 output is the first word unchanged,
    the temperature is [-45 + 175 * t_raw / 65535] and the humidity
    [100 * rh_raw / 65535], computed in binary32: finite, and within
    2^-17 and 2^-18 of the exact values.  Raw 0 gives -45 degrees, 65535
    gives 130, 32767 gives about 42.5; for the humidity raw 0 gives 0 and
    65535 gives 100. *)
Theorem readMeasurement_conversion :
  (forall (T : Type) (wire : TwoWire T) (address : Z) (ids : CommandIds)
          (outs : Z * float * float) (w : World T) co2 temp rh w',
     readMeasurement address ids outs w = Some ((true, (co2, temp, rh)), w') ->
     exists co2_raw t_raw rh_raw,
       three_words (nine_bytes address (READ_MEASUREMENT_RAW_CMD_ID ids) (i2c w))
       = Some (co2_raw, t_raw, rh_raw) /\
       co2 = co2_raw /\
       temp = temp_of_raw t_raw /\ is_finite temp = true /\
       within (1 # 131072) (float_val temp) (temp_exact t_raw) = true /\
       rh = rh_of_raw rh_raw /\ is_finite rh = true /\
       within (1 # 262144) (float_val rh) (rh_exact rh_raw) = true) /\
  temp_of_raw 0 = float_of_Z (-45) /\
  temp_of_raw 65535 = float_of_Z 130 /\
  within (1 # 500) (float_val (temp_of_raw 32767)) (85 # 2) = true /\
  rh_of_raw 0 = float_of_Z 0 /\
  rh_of_raw 65535 = float_of_Z 100.
Proof.
  split; [|repeat split; vm_compute; reflexivity].
  intros T wire address ids outs w co2 temp rh w' Hrun.
  destruct (readMeasurement_run address ids outs w) as (w1 & Hrun1 & _).
  rewrite Hrun1 in Hrun. clear Hrun1.
  destruct (nine_ready _ _ _); [|discriminate Hrun].
  destruct (three_words _) as [[[a b] c]|] eqn:Hw; [|discriminate Hrun].
  injection Hrun as <- <- <- _.
  destruct (three_words_u16 _ _ _ _ Hw) as (_ & Hb & Hc).
  destruct (temp_of_raw_accurate b Hb) as [Hf1 Ha1].
  destruct (rh_of_raw_accurate c Hc) as [Hf2 Ha2].
  exists a, b, c. repeat split; assumption.
Qed.

Lemma readMeasurement_conversion_witness :
  exists co2_raw t_raw rh_raw,
    three_words
      (nine_bytes 0x62 (READ_MEASUREMENT_RAW_CMD_ID scd4x_ids)
         (i2c (mock_with (word_group 400 ++ word_group 0x6667 ++ word_group 0x8000))))
    = Some (co2_raw, t_raw, rh_raw) /\
    400 = co2_raw /\
    temp_of_raw 0x6667 = temp_of_raw t_raw /\ is_finite (temp_of_raw 0x6667) = true /\
    within (1 # 131072) (float_val (temp_of_raw 0x6667)) (temp_exact t_raw) = true /\
    rh_of_raw 0x8000 = rh_of_raw rh_raw /\ is_finite (rh_of_raw 0x8000) = true /\
    within (1 # 262144) (float_val (rh_of_raw 0x8000)) (rh_exact rh_raw) = true.
Proof.
  eapply (proj1 readMeasurement_conversion Mock mock_wire 0x62 scd4x_ids
            (0, float_of_Z 0, float_of_Z 0)
            (mock_with (word_group 400 ++ word_group 0x6667 ++ word_group 0x8000))).
  vm_compute. reflexivity.
Defined.

(** C5 (as the code has it).  For the offsets 0, 1.5 and 20 degrees the
    setter's conversion gives the words 0, 561 and 7489, and the getter's
    conversion of these is within one LSB (175/65535 degrees) of the
    offset. *)
Theorem offset_round_trip_nonnegative :
  Forall (fun degC => offset_round_trip_ok degC = true)
         [float_of_Z 0; float_of 3 (-1); float_of_Z 20] /\
  offset_to_raw (float_of_Z 0) = Some 0 /\
  offset_to_raw (float_of 3 (-1)) = Some 561 /\
  offset_to_raw (float_of_Z 20) = Some 7489.
Proof.
  repeat split; repeat constructor; vm_compute; reflexivity.
Qed.

(** C5, the claim as the specification has it, fails at -10 degrees: the
    conversion to [uint16_t] is out of range (undefined, so the round trip
    has no value), and no 16-bit word at all decodes to within one LSB of
    -10. *)
Lemma offset_round_trip_negative_counterexample :
  offset_round_trip_ok (float_of_Z (-10)) = false /\
  offset_to_raw (float_of_Z (-10)) = None /\
  forallb (fun raw => negb (within offset_lsb (float_val (offset_of_raw raw))
                                   (float_val (float_of_Z (-10))))) all_words = true.
Proof.
  split; [vm_compute; reflexivity|]. split; [vm_compute; reflexivity|].
  apply forallb_forall. intros raw Hin.
  pose proof (proj1 (forallb_forall _ _) offset_checked raw Hin) as H.
  unfold offset_check in H. cbv zeta in H.
  apply andb_prop in H as [_ H]. exact H.
Qed.

(** C6.  When readSerialNumber succeeds, the three words it took from the
    bus all had a right CRC and the serial number is
    [(w0 << 32) | (w1 << 16) | w2], that is [w0 * 2^32 + w1 * 2^16 + w2],
    a 48-bit value; the words 0x1234, 0x5678, 0x9ABC give
    0x123456789ABC. *)
Theorem readSerialNumber_assembles :
  (forall (T : Type) (wire : TwoWire T) (address : Z) (ids : CommandIds)
          (sn : Z) (w : World T) sn' w',
     readSerialNumber address ids sn w = Some ((true, sn'), w') ->
     exists w0 w1 w2,
       three_words (nine_bytes address (GET_SERIAL_NUMBER_CMD_ID ids) (i2c w))
       = Some (w0, w1, w2) /\
       sn' = Z.lor (Z.lor (Z.shiftl w0 32) (Z.shiftl w1 16)) w2 /\
       sn' = w0 * 2 ^ 32 + w1 * 2 ^ 16 + w2 /\
       0 <= sn' < 2 ^ 48) /\
  serial_of_words 0x1234 0x5678 0x9ABC = 0x123456789ABC.
Proof.
  split; [|reflexivity].
  intros T wire address ids sn w sn' w' Hrun.
  destruct (readSerialNumber_run address ids sn w) as (w1 & Hrun1 & _).
  rewrite Hrun1 in Hrun. clear Hrun1.
  destruct (nine_ready _ _ _); [|discriminate Hrun].
  destruct (three_words _) as [[[a b] c]|] eqn:Hw; [|discriminate Hrun].
  injection Hrun as <- _.
  destruct (three_words_u16 _ _ _ _ Hw) as (Ha & Hb & Hc).
  destruct (serial_of_words_value a b c Ha Hb Hc) as (H1 & H2 & H3).
  exists a, b, c. repeat split; try assumption; apply H3.
Qed.

Lemma readSerialNumber_assembles_witness :
  exists w0 w1 w2,
    three_words
      (nine_bytes 0x62 (GET_SERIAL_NUMBER_CMD_ID scd4x_ids)
         (i2c (mock_with (word_group 0x1234 ++ word_group 0x5678 ++ word_group 0x9ABC))))
    = Some (w0, w1, w2) /\
    0x123456789ABC = Z.lor (Z.lor (Z.shiftl w0 32) (Z.shiftl w1 16)) w2 /\
    0x123456789ABC = w0 * 2 ^ 32 + w1 * 2 ^ 16 + w2 /\
    0 <= 0x123456789ABC < 2 ^ 48.
Proof.
  eapply (proj1 readSerialNumber_assembles Mock mock_wire 0x62 scd4x_ids 0
            (mock_with (word_group 0x1234 ++ word_group 0x5678 ++ word_group 0x9ABC))).
  vm_compute. reflexivity.
Defined.

(** C7.  On a bus whose available-byte count never reaches the
    [nwords * 3] bytes asked for, readNData returns, with failure and the
    buffer untouched: the polling loop gives up at the first check made
    more than 100 ms after it started, having waited 1 ms between checks,
    so the whole call takes 102 ms (nothing when the command itself was
    not acknowledged).  The clock may wrap around during the wait.  The
    byte count [nwords * 3] is within the range of a 16-bit [int]. *)
Theorem readNData_bounded_wait {T : Type} {wire : TwoWire T} (address : Z)
  (fuel : nat) (cmd : Z) (out : list Z) (nwords : nat) (w : World T) :
  (102 <= fuel)%nat ->
  Z.of_nat nwords * 3 <= 32767 ->
  (forall k, available (idle_rounds k (request_bus address cmd 1 (Z.of_nat nwords * 3)
                                         (i2c w))) < Z.of_nat nwords * 3) ->
  exists w',
    readNData address fuel cmd out nwords w = Some ((false, out), w') /\
    clock w' = (if fst (tx_bus address cmd [] (i2c w)) =? 0
                then clock w + 102 else clock w).
Proof. intros Hfuel _. apply readNData_starved, Hfuel. Qed.

Lemma readNData_bounded_wait_witness :
  exists w',
    readNData 0x62 102 0xE4B8 [7] 1 mock_silent = Some ((false, [7]), w') /\
    clock w' = (if fst (tx_bus 0x62 0xE4B8 [] (i2c mock_silent)) =? 0
                then clock mock_silent + 102 else clock mock_silent).
Proof.
  apply (readNData_bounded_wait 0x62 102 0xE4B8 [7] 1 mock_silent); [lia | lia |].
  intros k. rewrite mock_idle_rounds. vm_compute. reflexivity.
Defined.

(** C8.  txCommand -- and with it sendCommand and writeCommand -- begins
    one transmission to [address], writes the bytes of the frame in order
    (command MSB, command LSB, then MSB, LSB and CRC-8 of each payload
    word), ends the transmission once, and returns whether the status of
    that one endTransmission was 0; there is no second attempt.  On the
    scripted bus the recorded calls are exactly these. *)
Theorem txCommand_framing {T : Type} {wire : TwoWire T} (address cmd : Z)
  (words : list Z) (w : World T) :
  txCommand address cmd words w =
    Some (fst (endTransmission
                 (wire_bytes (frame cmd words) (beginTransmission address (i2c w)))) =? 0,
          mkWorld (snd (endTransmission
                          (wire_bytes (frame cmd words)
                                      (beginTransmission address (i2c w)))))
                  (clock w)) /\
  sendCommand address cmd w = txCommand address cmd [] w /\
  writeCommand address cmd words w = txCommand address cmd words w /\
  forall (m : Mock) (c : Z),
    txCommand address cmd words (mkWorld m c) =
    Some (hd 0 (acks m) =? 0,
          mkWorld (mkMock (trace m ++ [EvBegin address] ++
                           map EvWrite (frame cmd words) ++ [EvEnd])
                          (rx m) (tl (acks m)) (replies m)) c).
Proof.
  split; [apply txCommand_run|]. split; [reflexivity|]. split; [reflexivity|].
  intros m c. rewrite txCommand_run. cbn [i2c clock].
  rewrite mock_tx_bus. reflexivity.
Qed.

(** C9 (what the code does).  performForcedRecalibration, asked for the
    result, reads it back no sooner than 501 ms after the call began.
    performSelfTest has no such wait: it always returns within 102 ms,
    and when the three bytes are there at the first look, 1 ms after the
    command. *)
Theorem self_test_reads_without_long_wait {T : Type} {wire : TwoWire T}
  (address : Z) (ids : CommandIds) (fuel : nat) (status_word reference_ppm v : Z)
  (w : World T) :
  (102 <= fuel)%nat ->
  (exists res w',
     performSelfTest address ids fuel status_word w = Some (res, w') /\
     clock w <= clock w' <= clock w + 102 /\
     (fst (tx_bus address (PERFORM_SELF_TEST_CMD_ID ids) [] (i2c w)) = 0 ->
      3 <= available (request_bus address (PERFORM_SELF_TEST_CMD_ID ids) 1 3 (i2c w)) ->
      clock w' = clock w + 1)) /\
  (exists res w',
     performForcedRecalibration address ids fuel reference_ppm (Some v) w
     = Some (res, w') /\
     (fst res = true -> clock w + 501 <= clock w')).
Proof.
  intros Hfuel. split.
  - destruct (readNData1_run address fuel (PERFORM_SELF_TEST_CMD_ID ids) status_word w Hfuel)
      as (w' & Hrun & Hclk).
    pose proof (poll_rounds_le address (PERFORM_SELF_TEST_CMD_ID ids) 1 (i2c w)) as Hle.
    exists (readNData1_result address (PERFORM_SELF_TEST_CMD_ID ids) status_word (i2c w)), w'.
    split; [exact Hrun|]. rewrite Hclk. split.
    + destruct (_ =? 0); lia.
    + intros Hst Hav. apply Z.eqb_eq in Hst. rewrite Hst.
      unfold poll_rounds. change (Z.of_nat 1 * 3) with 3.
      rewrite rounds_waited_ready by exact Hav. lia.
  - unfold performForcedRecalibration, writeCommand. unfold bind at 1.
    rewrite txCommand_run.
    destruct (fst (tx_bus address (PERFORM_FORCED_RECALIBRATION_CMD_ID ids)
                     [reference_ppm] (i2c w)) =? 0); cbn [negb].
    + unfold bind at 1. unfold delay at 1. cbn [i2c clock]. unfold bind at 1.
      match goal with
      | |- context [readNData1 address fuel ?c v ?w0] =>
          destruct (readNData1_run address fuel c v w0 Hfuel) as (w' & Hrun & Hclk)
      end.
      rewrite Hrun. cbn [i2c clock] in Hclk.
      destruct (fst (readNData1_result _ _ _ _)) eqn:Hok; cbn [negb].
      * eexists _, w'. split; [reflexivity|]. intros _. rewrite Hclk.
        destruct (_ =? 0) eqn:Hst; [lia|].
        exfalso. revert Hok. unfold readNData1_result, readNData_result.
        cbn [i2c]. rewrite Hst. cbn [andb fst]. discriminate.
      * eexists _, w'. split; [reflexivity|]. cbn [fst]. discriminate.
    + eexists _, _. split; [reflexivity|]. cbn [fst]. discriminate.
Qed.

Lemma self_test_reads_without_long_wait_witness :
  (exists res w',
     performSelfTest 0x62 scd4x_ids 102 7 (mock_with (word_group 0)) = Some (res, w') /\
     clock (mock_with (word_group 0)) <= clock w' <= clock (mock_with (word_group 0)) + 102 /\
     (fst (tx_bus 0x62 (PERFORM_SELF_TEST_CMD_ID scd4x_ids) []
             (i2c (mock_with (word_group 0)))) = 0 ->
      3 <= available (request_bus 0x62 (PERFORM_SELF_TEST_CMD_ID scd4x_ids) 1 3
                        (i2c (mock_with (word_group 0)))) ->
      clock w' = clock (mock_with (word_group 0)) + 1)) /\
  (exists res w',
     performForcedRecalibration 0x62 scd4x_ids 102 400 (Some 7)
       (mock_with (word_group 0))
     = Some (res, w') /\
     (fst res = true -> clock (mock_with (word_group 0)) + 501 <= clock w')).
Proof.
  apply (self_test_reads_without_long_wait 0x62 scd4x_ids 102 7 400 7
           (mock_with (word_group 0))). lia.
Defined.

(** C10.  readMeasurement always returns, and whenever it returns
    failure its three outputs are as they were: when the command is not
    acknowledged, when fewer than nine bytes are available, and when any
    of the three CRCs is wrong.  checkCrc itself leaves the caller's word
    as it was when it fails. *)
Theorem readMeasurement_failure_keeps_outputs {T : Type} {wire : TwoWire T}
  (address : Z) (ids : CommandIds) (outs : Z * float * float) (w : World T) :
  (exists res w',
     readMeasurement address ids outs w = Some (res, w') /\
     (fst res = false -> snd res = outs) /\
     (fst (tx_bus address (READ_MEASUREMENT_RAW_CMD_ID ids) [] (i2c w)) <> 0 ->
      res = (false, outs)) /\
     (available (nine_bus address (READ_MEASUREMENT_RAW_CMD_ID ids) (i2c w)) < 9 ->
      res = (false, outs)) /\
     (all_crc_ok 3 (nine_bytes address (READ_MEASUREMENT_RAW_CMD_ID ids) (i2c w)) = false ->
      res = (false, outs))) /\
  (forall p word, fst (checkCrc p word) = false -> snd (checkCrc p word) = word).
Proof.
  split.
  - destruct (readMeasurement_run address ids outs w) as (w' & Hrun & _).
    eexists _, w'. split; [exact Hrun|]. unfold nine_ready.
    split; [|split; [|split]].
    + destruct (_ && _); [|reflexivity].
      destruct (three_words _) as [[[a b] c]|]; [discriminate | reflexivity].
    + intros Hst. apply Z.eqb_neq in Hst. rewrite Hst. reflexivity.
    + intros Hav. apply Z.leb_gt in Hav. rewrite Hav, andb_false_r. reflexivity.
    + intros Hbad. rewrite (three_words_all_crc_ok _ Hbad).
      destruct (_ && _); reflexivity.
  - intros p word. unfold checkCrc.
    destruct (negb _); cbn [fst snd]; [reflexivity | discriminate].
Qed.
(** ** Reads from the scripted bus *)

Lemma map_u8_bytes bs : Forall is_u8 bs -> map u8 bs = bs.
Proof.
  induction 1 as [|b bs Hb _ IH]; [reflexivity|].
  cbn [map]. rewrite IH, (u8_small b Hb). reflexivity.
Qed.

Lemma word_group_u8 w : Forall is_u8 (word_group w).
Proof.
  unfold word_group.
  constructor; [unfold is_u8, u8; apply Z.mod_pos_bound; lia|].
  constructor; [unfold is_u8, u8; apply Z.mod_pos_bound; lia|].
  constructor; [apply crc8_range | constructor].
Qed.

Lemma word_groups_u8 ws : Forall is_u8 (flat_map word_group ws).
Proof.
  induction ws as [|w ws IH]; [constructor|].
  cbn [flat_map]. apply Forall_app. split; [apply word_group_u8 | exact IH].
Qed.

Lemma word_groups_length ws : length (flat_map word_group ws) = (length ws * 3)%nat.
Proof.
  induction ws as [|w ws IH]; [reflexivity|].
  cbn [flat_map length Nat.mul Nat.add]. rewrite length_app, IH. reflexivity.
Qed.

Lemma valid_prefix_groups ws rest :
  Forall is_u16 ws -> valid_prefix (length ws) (flat_map word_group ws ++ rest) = ws.
Proof.
  induction 1 as [|w ws Hw _ IH]; [reflexivity|].
  cbn [flat_map length]. unfold word_group at 1. cbn [app valid_prefix].
  rewrite Z.eqb_refl, word_reassemble by exact Hw. f_equal. exact IH.
Qed.

Lemma overwrite_all ws out : length out = length ws -> overwrite 0 ws out = ws.
Proof.
  intros H. unfold overwrite. cbn [take app Nat.add].
  rewrite <- H, drop_all. apply app_nil_r.
Qed.

Lemma mock_rx_bytes n : forall m : Mock,
  (n <= length (rx m))%nat -> fst (rx_bytes n m) = map u8 (take n (rx m)).
Proof.
  induction n as [|n IH]; intros m Hn; [reflexivity|].
  cbn [rx_bytes]. cbn [read mock_wire]. unfold mock_read.
  destruct (rx m) as [|b bs] eqn:Hrx; [cbn in Hn; lia|].
  specialize (IH (mkMock (trace m ++ [EvRead]) bs (acks m) (replies m))).
  cbn [rx length] in IH, Hn.
  destruct (rx_bytes n _) as [cs t2]. cbn [fst] in *.
  cbn [take map]. rewrite IH by lia. reflexivity.
Qed.

(** The bus of a device that acknowledges and has one reply ready, after
    a command, the settling time and the request. *)
Lemma mock_request_bus a cmd settle nbytes reply :
  rx (request_bus a cmd settle nbytes (i2c (mock_with reply)))
  = take (Z.to_nat (u8 nbytes)) reply /\
  fst (tx_bus a cmd [] (i2c (mock_with reply))) = 0.
Proof. split; reflexivity. Qed.

Lemma mock_readNData_result a cmd out ws :
  Forall is_u16 ws -> length out = length ws -> (length ws <= 85)%nat ->
  poll_rounds a cmd (length ws) (i2c (mock_with (flat_map word_group ws))) = 0%nat /\
  readNData_result a cmd out (length ws) (i2c (mock_with (flat_map word_group ws)))
  = (true, ws).
Proof.
  intros Hws Hout Hn.
  set (reply := flat_map word_group ws).
  set (nbytes := Z.of_nat (length ws) * 3).
  assert (Hu8 : u8 nbytes = nbytes) by (apply u8_small; unfold is_u8, nbytes; lia).
  assert (Hrx : rx (request_bus a cmd 1 nbytes (i2c (mock_with reply))) = reply).
  { rewrite (proj1 (mock_request_bus a cmd 1 nbytes reply)), Hu8.
    apply take_ge. unfold reply. rewrite word_groups_length. unfold nbytes. lia. }
  assert (Hav : available (request_bus a cmd 1 nbytes (i2c (mock_with reply))) = nbytes).
  { cbn [available mock_wire]. rewrite Hrx. unfold reply.
    rewrite word_groups_length. unfold nbytes. lia. }
  assert (Hk : poll_rounds a cmd (length ws) (i2c (mock_with reply)) = 0%nat).
  { unfold poll_rounds. fold nbytes. apply rounds_waited_ready. rewrite Hav. lia. }
  split; [exact Hk|].
  unfold readNData_result, poll_bus. rewrite Hk. fold nbytes.
  change (idle_rounds 0 ?t) with t.
  rewrite (proj2 (mock_request_bus a cmd 1 nbytes reply)), Hav, Z.leb_refl.
  cbn [Z.eqb andb].
  rewrite mock_rx_bytes by (rewrite Hrx; unfold reply; rewrite word_groups_length; lia).
  rewrite Hrx, take_ge by (unfold reply; rewrite word_groups_length; lia).
  rewrite map_u8_bytes by apply word_groups_u8.
  unfold all_crc_ok, reply.
  rewrite <- (app_nil_r (flat_map word_group ws)), valid_prefix_groups by exact Hws.
  rewrite Nat.eqb_refl, overwrite_all by exact Hout. reflexivity.
Qed.

Lemma mock_nine a cmd reply :
  length reply = 9%nat -> Forall is_u8 reply ->
  nine_ready a cmd (i2c (mock_with reply)) = true /\
  nine_bytes a cmd (i2c (mock_with reply)) = reply.
Proof.
  intros Hlen Hu8.
  assert (Hrx : rx (request_bus a cmd 5 9 (i2c (mock_with reply))) = reply).
  { rewrite (proj1 (mock_request_bus a cmd 5 9 reply)).
    change (Z.to_nat (u8 9)) with 9%nat. apply take_ge. lia. }
  split.
  - unfold nine_ready, nine_bus.
    rewrite (proj2 (mock_request_bus a cmd 5 9 reply)).
    cbn [available mock_wire]. rewrite Hrx, Hlen. reflexivity.
  - unfold nine_bytes, nine_bus. rewrite mock_rx_bytes by (rewrite Hrx; lia).
    rewrite Hrx, take_ge by lia. apply map_u8_bytes, Hu8.
Qed.
(** * Further properties of the driver *)

(** ** Reads of [nwords] words *)

Lemma readNData1_outcome {T : Type} {wire : TwoWire T} (address : Z) (fuel : nat)
  (cmd word : Z) (w : World T) :
  (102 <= fuel)%nat ->
  exists res w',
    readNData1 address fuel cmd word w = Some (res, w') /\
    (fst res = false -> snd res = word) /\
    (fst res = true -> is_u16 (snd res)) /\
    clock w <= clock w' <= clock w + 102.
Proof.
  intros Hfuel.
  destruct (readNData1_run address fuel cmd word w Hfuel) as (w' & Hrun & Hclk).
  pose proof (poll_rounds_le address cmd 1 (i2c w)) as Hle.
  exists (readNData1_result address cmd word (i2c w)), w'.
  split; [exact Hrun|].
  destruct (readNData1_result_cases address cmd word (i2c w)) as [-> | (v & Hv & ->)];
    cbn [fst snd]; (split; [|split]); try discriminate; try reflexivity;
    try (intros _; exact Hv); rewrite Hclk; destruct (_ =? 0); lia.
Qed.

(** X1.  readNData returns on every bus, no later than 102 ms after the
    call, and with success exactly when the command was acknowledged, the
    bytes came within the polling time and every group carried its
    CRC. *)
Theorem readNData_returns_within_timeout {T : Type} {wire : TwoWire T} (address : Z)
  (fuel : nat) (cmd : Z) (out : list Z) (nwords : nat) (w : World T) :
  (102 <= fuel)%nat -> (nwords <= length out)%nat -> Z.of_nat nwords * 3 <= 32767 ->
  exists res w',
    readNData address fuel cmd out nwords w = Some (res, w') /\
    clock w <= clock w' <= clock w + 102 /\
    (fst res = true <->
     fst (tx_bus address cmd [] (i2c w)) = 0 /\
     Z.of_nat nwords * 3 <= available (poll_bus address cmd nwords (i2c w)) /\
     all_crc_ok nwords
       (fst (rx_bytes (nwords * 3) (poll_bus address cmd nwords (i2c w)))) = true).
Proof.
  intros Hfuel Hlen _.
  destruct (readNData_run address fuel cmd out nwords w Hfuel Hlen) as (w' & Hrun & Hclk).
  pose proof (poll_rounds_le address cmd nwords (i2c w)) as Hle.
  exists (readNData_result address cmd out nwords (i2c w)), w'.
  split; [exact Hrun|]. split.
  - rewrite Hclk. destruct (_ =? 0); lia.
  - unfold readNData_result.
    destruct (Z.eqb_spec (fst (tx_bus address cmd [] (i2c w))) 0) as [Hst|Hst];
      destruct (Z.leb_spec (Z.of_nat nwords * 3)
                  (available (poll_bus address cmd nwords (i2c w)))) as [Hav|Hav];
      cbn [andb fst]; split; try discriminate; try tauto; try (intros (? & ? & ?); lia).
Qed.

Lemma readNData_returns_within_timeout_witness :
  exists res w',
    readNData 0x62 102 0x3682 [7; 8] 2 mock_second_crc_bad = Some (res, w') /\
    clock mock_second_crc_bad <= clock w' <= clock mock_second_crc_bad + 102 /\
    (fst res = true <->
     fst (tx_bus 0x62 0x3682 [] (i2c mock_second_crc_bad)) = 0 /\
     Z.of_nat 2 * 3 <= available (poll_bus 0x62 0x3682 2 (i2c mock_second_crc_bad)) /\
     all_crc_ok 2
       (fst (rx_bytes (2 * 3) (poll_bus 0x62 0x3682 2 (i2c mock_second_crc_bad)))) = true).
Proof.
  apply (readNData_returns_within_timeout 0x62 102 0x3682 [7; 8] 2 mock_second_crc_bad);
    cbn; lia.
Defined.

(** X2.  What the framer writes, the reader reads back: from a device
    that answers with the groups of the words [ws] -- each word as
    txCommand would send it -- readNData stores exactly [ws] and succeeds,
    1 ms after the call.  The request length is a byte, so this holds up
    to 85 words. *)
Theorem readNData_reads_back_groups (address : Z) (fuel : nat) (cmd : Z)
  (out ws : list Z) :
  (102 <= fuel)%nat -> Forall is_u16 ws -> length out = length ws ->
  (length ws <= 85)%nat ->
  exists w',
    readNData address fuel cmd out (length ws) (mock_with (flat_map word_group ws))
    = Some ((true, ws), w') /\
    clock w' = 1.
Proof.
  intros Hfuel Hws Hout Hn.
  destruct (readNData_run address fuel cmd out (length ws)
              (mock_with (flat_map word_group ws)) Hfuel ltac:(lia)) as (w' & Hrun & Hclk).
  destruct (mock_readNData_result address cmd out ws Hws Hout Hn) as [Hk Hres].
  exists w'. rewrite Hrun, Hres. split; [reflexivity|].
  rewrite Hclk, Hk. reflexivity.
Qed.

Lemma readNData_reads_back_groups_witness :
  exists w',
    readNData 0x62 102 0x3682 [0; 0; 0] (length [0x1234; 0x5678; 0x9ABC])
      (mock_with (flat_map word_group [0x1234; 0x5678; 0x9ABC]))
    = Some ((true, [0x1234; 0x5678; 0x9ABC]), w') /\
    clock w' = 1.
Proof.
  apply (readNData_reads_back_groups 0x62 102 0x3682 [0; 0; 0] [0x1234; 0x5678; 0x9ABC]);
    [lia | repeat constructor; unfold is_u16; lia | reflexivity | cbn; lia].
Defined.



(** X4.  The getters of the data-ready status, the altitude, the ambient
    pressure and the sensor variant always return within 102 ms; when
    they fail the caller's variable is as it was, and when they succeed it
    holds a 16-bit word. *)
Theorem status_getters_keep_variable_on_failure {T : Type} {wire : TwoWire T}
  (address : Z) (ids : CommandIds) (fuel : nat) :
  (102 <= fuel)%nat ->
  Forall keeps_variable_on_failure
    [getDataReadyStatus address ids fuel;
     getSensorAltitude address ids fuel;
     getAmbientPressureRaw address ids fuel;
     getSensorVariantRaw address ids fuel].
Proof.
  intros Hfuel.
  repeat (apply Forall_cons_2; [intros word w; apply readNData1_outcome, Hfuel|]).
  apply Forall_nil_2.
Qed.

Lemma status_getters_keep_variable_on_failure_witness :
  Forall keeps_variable_on_failure
    [@getDataReadyStatus Mock mock_wire 0x62 scd4x_ids 102;
     getSensorAltitude 0x62 scd4x_ids 102;
     getAmbientPressureRaw 0x62 scd4x_ids 102;
     getSensorVariantRaw 0x62 scd4x_ids 102].
Proof.
  apply (status_getters_keep_variable_on_failure 0x62 scd4x_ids 102). lia.
Defined.

(** X5.  The same holds of the getters of the self-calibration target
    and of the two self-calibration periods, and of performSelfTest. *)
Theorem calibration_getters_keep_variable_on_failure {T : Type} {wire : TwoWire T}
  (address : Z) (ids : CommandIds) (fuel : nat) :
  (102 <= fuel)%nat ->
  Forall keeps_variable_on_failure
    [getAutomaticSelfCalibrationTarget address ids fuel;
     getAutomaticSelfCalibrationInitialPeriod address ids fuel;
     getAutomaticSelfCalibrationStandardPeriod address ids fuel;
     performSelfTest address ids fuel].
Proof.
  intros Hfuel.
  repeat (apply Forall_cons_2; [intros word w; apply readNData1_outcome, Hfuel|]).
  apply Forall_nil_2.
Qed.

Lemma calibration_getters_keep_variable_on_failure_witness :
  Forall keeps_variable_on_failure
    [@getAutomaticSelfCalibrationTarget Mock mock_wire 0x62 scd4x_ids 102;
     getAutomaticSelfCalibrationInitialPeriod 0x62 scd4x_ids 102;
     getAutomaticSelfCalibrationStandardPeriod 0x62 scd4x_ids 102;
     performSelfTest 0x62 scd4x_ids 102].
Proof.
  apply (calibration_getters_keep_variable_on_failure 0x62 scd4x_ids 102). lia.
Defined.
(** ** Flags, offsets and ranges *)

Lemma three_words_some raw :
  all_crc_ok 3 raw = true -> exists a b c, three_words raw = Some (a, b, c).
Proof.
  unfold all_crc_ok, three_words. intros H. apply Nat.eqb_eq in H.
  destruct (valid_prefix 3 raw) as [|a [|b [|c [|]]]]; try discriminate H.
  exists a, b, c. reflexivity.
Qed.

Lemma offset_of_raw_checked raw :
  is_u16 raw ->
  is_finite (offset_of_raw raw) = true /\
  (0 <= float_val (offset_of_raw raw) <= 175)%Q /\
  (offset_to_raw (offset_of_raw raw) = Some raw \/
   offset_to_raw (offset_of_raw raw) = Some (raw - 1)).
Proof.
  intros Hw. pose proof (forallb_words _ offset_checked raw Hw) as H.
  unfold offset_check in H. cbv zeta in H.
  apply andb_prop in H as [H _]. apply andb_prop in H as [H Hre].
  apply andb_prop in H as [H Hhi]. apply andb_prop in H as [Hfin Hlo].
  split; [exact Hfin|]. split.
  - split; apply Qle_bool_iff; assumption.
  - destruct (offset_to_raw (offset_of_raw raw)) as [r|]; [|discriminate Hre].
    apply orb_prop in Hre as [Hr|Hr]; apply Z.eqb_eq in Hr; subst r; auto.
Qed.

Lemma frame_payload_groups cmd ws : drop 2 (frame cmd ws) = flat_map word_group ws.
Proof.
  unfold frame. cbn [app drop]. change (drop 0 ?l) with l.
  induction ws as [|w ws IH]; [reflexivity|].
  cbn [flat_map]. rewrite IH. unfold word_group.
  rewrite u8_shiftr_div, u8_land_mod. reflexivity.
Qed.

(** X6.  getAutomaticSelfCalibrationEnabled always returns; on failure
    the caller's flag is as it was, on success it is whether the word read
    is not zero.  From a device that answers with the group of [v] the
    flag read is [v != 0]. *)
Theorem getAutomaticSelfCalibrationEnabled_decodes {T : Type} {wire : TwoWire T}
  (address : Z) (ids : CommandIds) (fuel : nat) (enabled : bool) (w : World T) :
  (102 <= fuel)%nat ->
  (exists res w',
     getAutomaticSelfCalibrationEnabled address ids fuel enabled w = Some (res, w') /\
     (fst res = false -> snd res = enabled) /\
     (fst res = true ->
      exists v, is_u16 v /\
        readNData1_result address (GET_AUTOMATIC_SELF_CALIBRATION_ENABLED_CMD_ID ids) 0
          (i2c w) = (true, v) /\
        snd res = negb (v =? 0))) /\
  (forall v, is_u16 v ->
     exists w',
       getAutomaticSelfCalibrationEnabled address ids fuel enabled
         (mock_with (word_group v))
       = Some ((true, negb (v =? 0)), w')).
Proof.
  intros Hfuel. split.
  - destruct (readNData1_run address fuel
                (GET_AUTOMATIC_SELF_CALIBRATION_ENABLED_CMD_ID ids) 0 w Hfuel)
      as (w' & Hrun & _).
    unfold getAutomaticSelfCalibrationEnabled, bind. rewrite Hrun.
    destruct (readNData1_result_cases address
                (GET_AUTOMATIC_SELF_CALIBRATION_ENABLED_CMD_ID ids) 0 (i2c w))
      as [-> | (v & Hv & ->)]; cbn [fst snd negb]; eexists _, w';
      (split; [reflexivity|]); cbn [fst snd]; split; try discriminate; try reflexivity.
    intros _. exists v. auto.
  - intros v Hv.
    destruct (readNData1_run address fuel
                (GET_AUTOMATIC_SELF_CALIBRATION_ENABLED_CMD_ID ids) 0
                (mock_with (word_group v)) Hfuel) as (w' & Hrun & _).
    exists w'. unfold getAutomaticSelfCalibrationEnabled, bind. rewrite Hrun.
    unfold readNData1_result.
    pose proof (proj2 (mock_readNData_result address
                         (GET_AUTOMATIC_SELF_CALIBRATION_ENABLED_CMD_ID ids) [0] [v]
                         ltac:(constructor; [exact Hv | constructor])
                         ltac:(reflexivity) ltac:(cbn; lia))) as Hres.
    cbn [length flat_map] in Hres. rewrite app_nil_r in Hres.
    rewrite Hres. reflexivity.
Qed.

Lemma getAutomaticSelfCalibrationEnabled_decodes_witness :
  (exists res w',
     getAutomaticSelfCalibrationEnabled 0x62 scd4x_ids 102 false
       (mock_with (word_group 1)) = Some (res, w') /\
     (fst res = false -> snd res = false) /\
     (fst res = true ->
      exists v, is_u16 v /\
        readNData1_result 0x62 (GET_AUTOMATIC_SELF_CALIBRATION_ENABLED_CMD_ID scd4x_ids) 0
          (i2c (mock_with (word_group 1))) = (true, v) /\
        snd res = negb (v =? 0))) /\
  (forall v, is_u16 v ->
     exists w',
       getAutomaticSelfCalibrationEnabled 0x62 scd4x_ids 102 false
         (mock_with (word_group v))
       = Some ((true, negb (v =? 0)), w')).
Proof.
  apply (getAutomaticSelfCalibrationEnabled_decodes 0x62 scd4x_ids 102 false
           (mock_with (word_group 1))). lia.
Defined.

(** X7.  getTemperatureOffset always returns; on failure the caller's
    value is as it was, on success it is the conversion of a 16-bit word:
    a finite number between 0 and 175 degrees. *)
Theorem getTemperatureOffset_range {T : Type} {wire : TwoWire T}
  (address : Z) (ids : CommandIds) (fuel : nat) (degC : float) (w : World T) :
  (102 <= fuel)%nat ->
  exists res w',
    getTemperatureOffset address ids fuel degC w = Some (res, w') /\
    (fst res = false -> snd res = degC) /\
    (fst res = true ->
     (exists raw, is_u16 raw /\ snd res = offset_of_raw raw) /\
     is_finite (snd res) = true /\
     (0 <= float_val (snd res) <= 175)%Q).
Proof.
  intros Hfuel.
  destruct (readNData1_run address fuel (GET_TEMPERATURE_OFFSET_RAW_CMD_ID ids) 0 w Hfuel)
    as (w' & Hrun & _).
  unfold getTemperatureOffset, bind. rewrite Hrun.
  destruct (readNData1_result_cases address (GET_TEMPERATURE_OFFSET_RAW_CMD_ID ids) 0 (i2c w))
    as [-> | (v & Hv & ->)]; cbn [fst snd negb]; eexists _, w';
    (split; [reflexivity|]); cbn [fst snd]; split; try discriminate; try reflexivity.
  intros _. destruct (offset_of_raw_checked v Hv) as (Hfin & Hrange & _).
  split; [exists v; auto|]. split; assumption.
Qed.

Lemma getTemperatureOffset_range_witness :
  exists res w',
    getTemperatureOffset 0x62 scd4x_ids 102 (float_of_Z 1) (mock_with (word_group 561))
    = Some (res, w') /\
    (fst res = false -> snd res = float_of_Z 1) /\
    (fst res = true ->
     (exists raw, is_u16 raw /\ snd res = offset_of_raw raw) /\
     is_finite (snd res) = true /\
     (0 <= float_val (snd res) <= 175)%Q).
Proof.
  apply (getTemperatureOffset_range 0x62 scd4x_ids 102 (float_of_Z 1)
           (mock_with (word_group 561))). lia.
Defined.

(** X8.  Writing back an offset that was read: for every 16-bit word
    [raw], the setter's conversion of the getter's value of [raw] is
    defined and gives [raw] or [raw - 1] (the conversion truncates), and
    setTemperatureOffset sends that word. *)
Theorem setTemperatureOffset_of_read_offset {T : Type} {wire : TwoWire T}
  (address : Z) (ids : CommandIds) (raw : Z) (w : World T) :
  is_u16 raw ->
  exists r, (r = raw \/ r = raw - 1) /\
    offset_to_raw (offset_of_raw raw) = Some r /\
    setTemperatureOffset address ids (offset_of_raw raw) w
    = writeCommand address (SET_TEMPERATURE_OFFSET_RAW_CMD_ID ids) [r] w.
Proof.
  intros Hw. destruct (offset_of_raw_checked raw Hw) as (_ & _ & [H|H]).
  - exists raw. split; [left; reflexivity|]. split; [exact H|].
    unfold setTemperatureOffset. rewrite H. reflexivity.
  - exists (raw - 1). split; [right; reflexivity|]. split; [exact H|].
    unfold setTemperatureOffset. rewrite H. reflexivity.
Qed.

Lemma setTemperatureOffset_of_read_offset_witness :
  exists r, (r = 561 \/ r = 561 - 1) /\
    offset_to_raw (offset_of_raw 561) = Some r /\
    setTemperatureOffset 0x62 scd4x_ids (offset_of_raw 561) mock_silent
    = writeCommand 0x62 (SET_TEMPERATURE_OFFSET_RAW_CMD_ID scd4x_ids) [r] mock_silent.
Proof.
  apply (setTemperatureOffset_of_read_offset 0x62 scd4x_ids 561 mock_silent).
  unfold is_u16. lia.
Defined.

(** X9.  Every successful readMeasurement gives a temperature between
    -45 and 130 degrees and a humidity between 0 and 100 percent, both
    finite, and a CO2 value that is a 16-bit word. *)
Theorem readMeasurement_ranges {T : Type} {wire : TwoWire T} (address : Z)
  (ids : CommandIds) (outs : Z * float * float) (w : World T) co2 temp rh w' :
  readMeasurement address ids outs w = Some ((true, (co2, temp, rh)), w') ->
  is_u16 co2 /\
  is_finite temp = true /\ (-45 <= float_val temp <= 130)%Q /\
  is_finite rh = true /\ (0 <= float_val rh <= 100)%Q.
Proof.
  intros Hrun.
  destruct (readMeasurement_run address ids outs w) as (w1 & Hrun1 & _).
  rewrite Hrun1 in Hrun. clear Hrun1.
  destruct (nine_ready _ _ _); [|discriminate Hrun].
  destruct (three_words _) as [[[a b] c]|] eqn:Hw; [|discriminate Hrun].
  injection Hrun as <- <- <- _.
  destruct (three_words_u16 _ _ _ _ Hw) as (Ha & Hb & Hc).
  pose proof (forallb_words _ temp_checked b Hb) as Ht.
  pose proof (forallb_words _ rh_checked c Hc) as Hr.
  unfold temp_check in Ht. unfold rh_check in Hr. cbv zeta in Ht, Hr.
  apply andb_prop in Ht as [Ht Ht4]. apply andb_prop in Ht as [Ht Ht3].
  apply andb_prop in Ht as [Ht1 _].
  apply andb_prop in Hr as [Hr Hr4]. apply andb_prop in Hr as [Hr Hr3].
  apply andb_prop in Hr as [Hr1 _].
  split; [exact Ha|]. split; [exact Ht1|].
  split; [split; apply Qle_bool_iff; assumption|].
  split; [exact Hr1|]. split; apply Qle_bool_iff; assumption.
Qed.

Lemma readMeasurement_ranges_witness :
  is_u16 400 /\
  is_finite (temp_of_raw 0x6667) = true /\
  (-45 <= float_val (temp_of_raw 0x6667) <= 130)%Q /\
  is_finite (rh_of_raw 0x8000) = true /\
  (0 <= float_val (rh_of_raw 0x8000) <= 100)%Q.
Proof.
  eapply (readMeasurement_ranges 0x62 scd4x_ids (0, float_of_Z 0, float_of_Z 0)
            (mock_with (word_group 400 ++ word_group 0x6667 ++ word_group 0x8000))).
  vm_compute. reflexivity.
Defined.
(** ** Identity, calibration and start-up *)

(** X10.  readSerialNumber always returns, no later than 5 ms after the
    call; it succeeds exactly when the command was acknowledged, nine
    bytes were available and the three CRCs matched, and on failure the
    caller's serial number is as it was. *)
Theorem readSerialNumber_outcome {T : Type} {wire : TwoWire T} (address : Z)
  (ids : CommandIds) (sn : Z) (w : World T) :
  exists res w',
    readSerialNumber address ids sn w = Some (res, w') /\
    (fst res = false -> snd res = sn) /\
    (fst res = true <->
     nine_ready address (GET_SERIAL_NUMBER_CMD_ID ids) (i2c w) = true /\
     all_crc_ok 3 (nine_bytes address (GET_SERIAL_NUMBER_CMD_ID ids) (i2c w)) = true) /\
    clock w <= clock w' <= clock w + 5.
Proof.
  destruct (readSerialNumber_run address ids sn w) as (w' & Hrun & Hclk).
  eexists _, w'. split; [exact Hrun|].
  split; [|split].
  - destruct (nine_ready _ _ _); [|reflexivity].
    destruct (three_words _) as [[[a b] c]|]; [discriminate | reflexivity].
  - destruct (nine_ready _ _ _); cbn [fst]; [|split; [discriminate | intros [? _]; discriminate]].
    destruct (all_crc_ok 3 _) eqn:Hcrc.
    + destruct (three_words_some _ Hcrc) as (a & b & c & ->). cbn [fst]. tauto.
    + rewrite (three_words_all_crc_ok _ Hcrc). cbn [fst].
      split; [discriminate | intros [_ ?]; discriminate].
  - rewrite Hclk. destruct (_ =? 0); lia.
Qed.

(** X11.  performForcedRecalibration with a null result pointer is the
    one write transaction carrying the reference word: it waits for
    nothing and reads nothing, and returns whether the write was
    acknowledged.  With a result pointer and a write that is not
    acknowledged it returns failure at once, the result untouched. *)
Theorem performForcedRecalibration_without_result {T : Type} {wire : TwoWire T}
  (address : Z) (ids : CommandIds) (fuel : nat) (reference_ppm v : Z) (w : World T) :
  performForcedRecalibration address ids fuel reference_ppm None w =
    Some ((fst (tx_bus address (PERFORM_FORCED_RECALIBRATION_CMD_ID ids)
                  [reference_ppm] (i2c w)) =? 0, None),
          mkWorld (snd (tx_bus address (PERFORM_FORCED_RECALIBRATION_CMD_ID ids)
                          [reference_ppm] (i2c w))) (clock w)) /\
  (fst (tx_bus address (PERFORM_FORCED_RECALIBRATION_CMD_ID ids)
          [reference_ppm] (i2c w)) <> 0 ->
   performForcedRecalibration address ids fuel reference_ppm (Some v) w =
     Some ((false, Some v),
           mkWorld (snd (tx_bus address (PERFORM_FORCED_RECALIBRATION_CMD_ID ids)
                           [reference_ppm] (i2c w))) (clock w))).
Proof.
  split.
  - unfold performForcedRecalibration, writeCommand. unfold bind at 1.
    rewrite txCommand_run. destruct (_ =? 0); reflexivity.
  - intros Hst. apply Z.eqb_neq in Hst.
    unfold performForcedRecalibration, writeCommand. unfold bind at 1.
    rewrite txCommand_run, Hst. reflexivity.
Qed.

(** X12.  begin always returns, between 205 and 210 ms after the call,
    with the member [address] set to [i2cAddr].  The wake-up and the
    re-initialisation are sent to the address the member held before, the
    stop command and the serial-number read to [i2cAddr]; the results of
    the first three commands are ignored, and begin returns true exactly
    when the serial-number read succeeds. *)
Theorem begin_probes_serial_number {T : Type} {wire : TwoWire T} (address : Z)
  (ids : CommandIds) (i2cAddr sda scl i2cFreq : Z) (w : World T) :
  exists ok w',
    begin address ids i2cAddr sda scl i2cFreq w = Some ((ok, i2cAddr), w') /\
    ok = nine_ready i2cAddr (GET_SERIAL_NUMBER_CMD_ID ids)
           (begin_bus address ids i2cAddr i2cFreq (i2c w))
         && all_crc_ok 3 (nine_bytes i2cAddr (GET_SERIAL_NUMBER_CMD_ID ids)
                            (begin_bus address ids i2cAddr i2cFreq (i2c w))) /\
    clock w + 205 <= clock w' <= clock w + 210.
Proof.
  unfold begin, wakeUp, reInit, sendCommand, i2c_begin, i2c_setClock.
  unfold bind at 1. cbn [i2c clock]. unfold bind at 1. cbn [i2c clock].
  unfold bind at 1. rewrite txCommand_run. cbn [i2c clock].
  unfold bind at 1. unfold delay at 1. cbn [i2c clock].
  unfold bind at 1. rewrite txCommand_run. cbn [i2c clock].
  unfold bind at 1. unfold delay at 1. cbn [i2c clock].
  unfold bind at 1. rewrite txCommand_run. cbn [i2c clock].
  unfold bind at 1. unfold delay at 1. cbn [i2c clock].
  fold (begin_bus address ids i2cAddr i2cFreq (i2c w)).
  unfold bind.
  match goal with
  | |- context [readSerialNumber i2cAddr ids 0 ?w0] =>
      destruct (readSerialNumber_run i2cAddr ids 0 w0) as (w' & Hrun & Hclk)
  end.
  rewrite Hrun. cbn [i2c clock] in *.
  destruct (nine_ready _ _ _); cbn [andb].
  - destruct (all_crc_ok 3 _) eqn:Hcrc.
    + destruct (three_words_some _ Hcrc) as (a & b & c & ->). cbn [fst].
      eexists _, w'. split; [reflexivity|]. split; [reflexivity|].
      rewrite Hclk. destruct (_ =? 0); lia.
    + rewrite (three_words_all_crc_ok _ Hcrc). cbn [fst].
      eexists _, w'. split; [reflexivity|]. split; [reflexivity|].
      rewrite Hclk. destruct (_ =? 0); lia.
  - cbn [fst]. eexists _, w'. split; [reflexivity|]. split; [reflexivity|].
    rewrite Hclk. destruct (_ =? 0); lia.
Qed.

(** X13.  From a device that answers with the groups of three words,
    readMeasurement succeeds with the first word as the CO2 value and the
    conversions of the second and the third. *)
Theorem readMeasurement_reads_back_groups (address : Z) (ids : CommandIds)
  (outs : Z * float * float) (co2_raw t_raw rh_raw : Z) :
  is_u16 co2_raw -> is_u16 t_raw -> is_u16 rh_raw ->
  exists w',
    readMeasurement address ids outs
      (mock_with (word_group co2_raw ++ word_group t_raw ++ word_group rh_raw))
    = Some ((true, (co2_raw, temp_of_raw t_raw, rh_of_raw rh_raw)), w') /\
    clock w' = 5.
Proof.
  intros Hc Ht Hr.
  set (reply := word_group co2_raw ++ word_group t_raw ++ word_group rh_raw).
  destruct (readMeasurement_run address ids outs (mock_with reply)) as (w' & Hrun & Hclk).
  destruct (mock_nine address (READ_MEASUREMENT_RAW_CMD_ID ids) reply) as [Hready Hbytes].
  { reflexivity. }
  { unfold reply. repeat (apply Forall_app; split); apply word_group_u8. }
  exists w'. rewrite Hrun, Hready, Hbytes. unfold reply.
  rewrite three_words_groups by assumption. split; [reflexivity|].
  rewrite Hclk. reflexivity.
Qed.

Lemma readMeasurement_reads_back_groups_witness :
  exists w',
    readMeasurement 0x62 scd4x_ids (0, float_of_Z 0, float_of_Z 0)
      (mock_with (word_group 400 ++ word_group 0x6667 ++ word_group 0x8000))
    = Some ((true, (400, temp_of_raw 0x6667, rh_of_raw 0x8000)), w') /\
    clock w' = 5.
Proof.
  apply (readMeasurement_reads_back_groups 0x62 scd4x_ids (0, float_of_Z 0, float_of_Z 0)
           400 0x6667 0x8000); unfold is_u16; lia.
Defined.

(** ** The checksum, byte by byte *)

Lemma lxor_cancel_l x a b : Z.lxor x a = Z.lxor x b -> a = b.
Proof.
  intros H.
  rewrite <- (Z.lxor_0_l a), <- (Z.lxor_0_l b), <- (Z.lxor_nilpotent x).
  rewrite !Z.lxor_assoc, H. reflexivity.
Qed.

Lemma crc8_inj_b1 b0 b1 b1' :
  is_u8 b1 -> is_u8 b1' -> crc8 b0 b1 = crc8 b0 b1' -> b1 = b1'.
Proof.
  intros H1 H1' H. rewrite !crc8_unfold in H.
  assert (Hx : is_u8 (crc_rounds 8 (u8 (Z.lxor 255 b0)))).
  { apply crc_rounds_range. unfold u8, is_u8. apply Z.mod_pos_bound. lia. }
  generalize dependent (crc_rounds 8 (u8 (Z.lxor 255 b0))). intros x H Hx.
  rewrite (u8_small _ (lxor_u8 _ _ Hx H1)), (u8_small _ (lxor_u8 _ _ Hx H1')) in H.
  apply crc_rounds_inj in H; [| apply lxor_u8; assumption ..].
  exact (lxor_cancel_l _ _ _ H).
Qed.

Lemma crc8_inj_b0 b0 b0' b1 :
  is_u8 b0 -> is_u8 b0' -> is_u8 b1 -> crc8 b0 b1 = crc8 b0' b1 -> b0 = b0'.
Proof.
  intros H0 H0' H1 H. rewrite !crc8_unfold in H.
  assert (Hff : is_u8 255) by (unfold is_u8; lia).
  pose proof (lxor_u8 _ _ Hff H0) as Ha. pose proof (lxor_u8 _ _ Hff H0') as Ha'.
  rewrite (u8_small _ Ha), (u8_small _ Ha') in H.
  pose proof (crc_rounds_range 8 _ Ha) as Hx.
  pose proof (crc_rounds_range 8 _ Ha') as Hx'.
  rewrite (u8_small _ (lxor_u8 _ _ Hx H1)), (u8_small _ (lxor_u8 _ _ Hx' H1)) in H.
  apply crc_rounds_inj in H; [| apply lxor_u8; assumption ..].
  rewrite (Z.lxor_comm _ b1), (Z.lxor_comm _ b1) in H.
  apply lxor_cancel_l in H.
  apply crc_rounds_inj in H; [| assumption ..].
  exact (lxor_cancel_l _ _ _ H).
Qed.

(** X14.  checkCrc rejects every group that differs from a valid one in
    exactly one of its three bytes, whatever the change to that byte, and
    leaves the caller's word as it was. *)
Theorem checkCrc_detects_single_byte_error (b0 b1 x old : Z) :
  is_u8 b0 -> is_u8 b1 -> is_u8 x ->
  (x <> b0 -> checkCrc [x; b1; crc8 b0 b1] old = (false, old)) /\
  (x <> b1 -> checkCrc [b0; x; crc8 b0 b1] old = (false, old)) /\
  (x <> crc8 b0 b1 -> checkCrc [b0; b1; x] old = (false, old)).
Proof.
  intros H0 H1 Hx. split; [|split]; intros Hne; apply checkCrc_mismatch.
  - intros H. apply Hne. exact (crc8_inj_b0 _ _ _ Hx H0 H1 H).
  - intros H. apply Hne. exact (crc8_inj_b1 _ _ _ Hx H1 H).
  - intros H. apply Hne. symmetry. exact H.
Qed.

Lemma checkCrc_detects_single_byte_error_witness :
  (0x00 <> 0xBE -> checkCrc [0x00; 0xEF; crc8 0xBE 0xEF] 7 = (false, 7)) /\
  (0x00 <> 0xEF -> checkCrc [0xBE; 0x00; crc8 0xBE 0xEF] 7 = (false, 7)) /\
  (0x00 <> crc8 0xBE 0xEF -> checkCrc [0xBE; 0xEF; 0x00] 7 = (false, 7)).
Proof.
  apply (checkCrc_detects_single_byte_error 0xBE 0xEF 0x00 7); unfold is_u8; lia.
Defined.

(** ** Commands and setters *)

(** X15.  The methods that only send a command -- start, low-power
    start and stop of the periodic measurement, the two single shots,
    persist, factory reset, re-init, power down and wake up -- are each
    one write transaction of the two command bytes: the method returns
    whether it was acknowledged, and no time passes in it. *)
Theorem command_methods_send_two_bytes {T : Type} {wire : TwoWire T}
  (address : Z) (ids : CommandIds) :
  one_transaction address (startPeriodicMeasurement address ids)
    (START_PERIODIC_MEASUREMENT_CMD_ID ids) [] /\
  one_transaction address (startLowPowerPeriodicMeasurement address ids)
    (START_LOW_POWER_PERIODIC_MEASUREMENT_CMD_ID ids) [] /\
  one_transaction address (stopPeriodicMeasurement address ids)
    (STOP_PERIODIC_MEASUREMENT_CMD_ID ids) [] /\
  one_transaction address (measureSingleShot address ids)
    (MEASURE_SINGLE_SHOT_CMD_ID ids) [] /\
  one_transaction address (measureSingleShotRhtOnly address ids)
    (MEASURE_SINGLE_SHOT_RHT_ONLY_CMD_ID ids) [] /\
  one_transaction address (persistSettings address ids)
    (PERSIST_SETTINGS_CMD_ID ids) [] /\
  one_transaction address (factoryReset address ids)
    (PERFORM_FACTORY_RESET_CMD_ID ids) [] /\
  one_transaction address (reInit address ids) (REINIT_CMD_ID ids) [] /\
  one_transaction address (powerDown address ids) (POWER_DOWN_CMD_ID ids) [] /\
  one_transaction address (wakeUp address ids) (WAKE_UP_CMD_ID ids) [] /\
  forall cmd, frame cmd [] = [cmd / 256 mod 256; cmd mod 256].
Proof.
  repeat (split; [intros w; apply txCommand_run|]). reflexivity.
Qed.

Lemma payload_decodes cmd word old :
  is_u16 word -> checkCrc (drop 2 (frame cmd [word])) old = (true, word).
Proof.
  intros Hw. rewrite frame_payload_groups. cbn [flat_map].
  rewrite app_nil_r. apply checkCrc_group_ok, Hw.
Qed.

(** X16.  Setting the altitude or the ambient pressure is one write
    transaction of five bytes -- the command and one payload word -- and
    the three payload bytes pass checkCrc and decode to the word that was
    set. *)
Theorem compensation_setters_send_decodable_word {T : Type} {wire : TwoWire T}
  (address : Z) (ids : CommandIds) (word old : Z) :
  is_u16 word ->
  one_transaction address (setSensorAltitude address ids word)
    (SET_SENSOR_ALTITUDE_CMD_ID ids) [word] /\
  one_transaction address (setAmbientPressureRaw address ids word)
    (SET_AMBIENT_PRESSURE_RAW_CMD_ID ids) [word] /\
  (forall cmd, length (frame cmd [word]) = 5%nat /\
               checkCrc (drop 2 (frame cmd [word])) old = (true, word)).
Proof.
  intros Hw. repeat (split; [intros w; apply txCommand_run|]).
  intros cmd. split; [reflexivity | apply payload_decodes, Hw].
Qed.

Lemma compensation_setters_send_decodable_word_witness :
  one_transaction 0x62 (@setSensorAltitude Mock mock_wire 0x62 scd4x_ids 1950)
    (SET_SENSOR_ALTITUDE_CMD_ID scd4x_ids) [1950] /\
  one_transaction 0x62 (@setAmbientPressureRaw Mock mock_wire 0x62 scd4x_ids 1950)
    (SET_AMBIENT_PRESSURE_RAW_CMD_ID scd4x_ids) [1950] /\
  (forall cmd, length (frame cmd [1950]) = 5%nat /\
               checkCrc (drop 2 (frame cmd [1950])) 7 = (true, 1950)).
Proof.
  apply (compensation_setters_send_decodable_word 0x62 scd4x_ids 1950 7).
  unfold is_u16. lia.
Defined.


